(** * aquestia-poc: the retrieval-augmented question-answering pipeline of [app.py]

    A shallow embedding of [app.py]: the layered configuration, the start-up
    guard on the two API keys, the [ask] pipeline (embedding call, vector
    search, context and prompt assembly, generation call) and the Streamlit
    entry point [main], together with the Python primitives they rest on
    ([str.strip], [str.join], [str.split], [int], [textwrap.dedent]). *)

From Stdlib Require Import ZArith NArith List String Ascii Bool Lia.
From stdpp Require Import gmap list fin_maps.

Open Scope N_scope.

(** ** Python strings

    A Python [str] is a sequence of Unicode code points.  The template of
    [ask] holds U+2011 and questions are arbitrary text, so a string is a
    list of code points, not of bytes. *)

Abbreviation str := (list N).

(** An ASCII literal of the source as a [str]. *)
Definition lit (s : string) : str :=
  map N_of_ascii (list_ascii_of_string s).

Definition NL : N := 10.
Definition SPACE : N := 32.
Definition TAB : N := 9.

Module Py.

(** [c.isspace()] for one code point: the code points whose bidirectional
    class is WS, B or S, or whose category is Zs. *)
Definition isspace (c : N) : bool :=
  ((9 <=? c) && (c <=? 13)) || ((28 <=? c) && (c <=? 32))
  || (c =? 133) || (c =? 160) || (c =? 5760)
  || ((8192 <=? c) && (c <=? 8202))
  || (c =? 8232) || (c =? 8233) || (c =? 8239) || (c =? 8287) || (c =? 12288).

(** Stripping the characters that satisfy [p] from the left, from the
    right, from both ends. *)
Fixpoint lstrip_by (p : N -> bool) (s : str) : str :=
  match s with
  | [] => []
  | c :: r => if p c then lstrip_by p r else s
  end.

Definition rstrip_by (p : N -> bool) (s : str) : str :=
  rev (lstrip_by p (rev s)).

Definition strip_by (p : N -> bool) (s : str) : str :=
  rstrip_by p (lstrip_by p s).

(** [s.strip()] *)
Definition strip (s : str) : str := strip_by isspace s.

(** [sep.join(parts)] *)
Fixpoint join (sep : str) (parts : list str) : str :=
  match parts with
  | [] => []
  | [p] => p
  | p :: ps => p ++ sep ++ join sep ps
  end.

(** [s.split(c)] for a one-character separator: never the empty list. *)
Fixpoint split (c : N) (s : str) : list str :=
  match s with
  | [] => [[]]
  | x :: r =>
      if x =? c then [] :: split c r
      else match split c r with
           | l :: ls => (x :: l) :: ls
           | [] => [[x]]
           end
  end.

(** [s.startswith(p)] *)
Fixpoint startswith (s p : str) : bool :=
  match p, s with
  | [], _ => true
  | _ :: _, [] => false
  | a :: p', b :: s' => (a =? b) && startswith s' p'
  end.

(** [sub in s] *)
Fixpoint contains (s sub : str) : bool :=
  startswith s sub ||
  match s with
  | [] => false
  | _ :: r => contains r sub
  end.

(** Truthiness of a [str]: the empty string is false. *)
Definition truthy (s : str) : bool :=
  match s with [] => false | _ => true end.

End Py.

(** ** [textwrap.dedent]

    The standard library's function, regular expression by regular
    expression.  Both expressions are compiled with [re.MULTILINE] and none
    of them matches a newline, so each works line by line on
    [text.split("\n")]. *)

Module Textwrap.

Definition is_blank_char (c : N) : bool := (c =? SPACE) || (c =? TAB).

(** The longest prefix of spaces and tabs: what the group of
    [_leading_whitespace_re] captures. *)
Fixpoint leading (l : str) : str :=
  match l with
  | c :: r => if is_blank_char c then c :: leading r else []
  | [] => []
  end.

Fixpoint after_leading (l : str) : str :=
  match l with
  | c :: r => if is_blank_char c then after_leading r else l
  | [] => []
  end.

(** [_whitespace_only_re.sub('', text)]: the expression matches a whole
    line made of one or more spaces and tabs, which becomes empty. *)
Definition blank_line (l : str) : str :=
  match after_leading l with
  | [] => []
  | _ :: _ => l
  end.

(** [_leading_whitespace_re.findall(text)]: the expression matches, from
    the start of a line, the run of spaces and tabs (its group) and one more
    character that is neither space, tab nor newline; so there is one indent
    per line that has a character other than space and tab. *)
Fixpoint indents (ls : list str) : list str :=
  match ls with
  | [] => []
  | l :: r =>
      match after_leading l with
      | [] => indents r
      | _ :: _ => leading l :: indents r
      end
  end.

(** The innermost loop: [margin[:i]] at the first [i] where [margin] and
    [indent] differ, [margin] itself when [zip] runs out first. *)
Fixpoint cut_at_difference (margin indent : str) : str :=
  match margin, indent with
  | x :: m', y :: i' => if x =? y then x :: cut_at_difference m' i' else []
  | _, _ => margin
  end.

(** One turn of [for indent in indents]. *)
Definition margin_step (margin : option str) (indent : str) : option str :=
  match margin with
  | None => Some indent
  | Some m =>
      if Py.startswith indent m then Some m
      else if Py.startswith m indent then Some indent
      else Some (cut_at_difference m indent)
  end.

Definition margin_of (ls : list str) : option str :=
  fold_left margin_step (indents ls) None.

(** [re.sub(r'(?m)^' + margin, '', text)] on one line. *)
Definition strip_margin (m : str) (l : str) : str :=
  if Py.startswith l m then drop (length m) l else l.

Definition dedent (text : str) : str :=
  let ls := map blank_line (Py.split NL text) in
  match margin_of ls with
  | Some (c :: m) => Py.join [NL] (map (strip_margin (c :: m)) ls)
  | _ => Py.join [NL] ls
  end.

End Textwrap.

(** ** Values, exceptions and the configuration sources *)

(** A Python [float]: an IEEE number [m * 2 ^ e], an infinity, or a NaN. *)
Inductive pyfloat : Type :=
  | FFinite (m e : Z)
  | FInf
  | FNan.

(** What a secret, an environment variable or a default can be: [None], a
    string, an integer (a TOML integer, or the default [20]), a boolean, a
    float, or another TOML value (an array, a table, a date), of which only
    the truth value matters here. *)
Inductive pyval : Type :=
  | VNone
  | VStr (s : str)
  | VInt (n : Z)
  | VBool (b : bool)
  | VFloat (f : pyfloat)
  | VOther (true_value : bool).

(** [bool(v)], as [not v] uses it. *)
Definition truthy (v : pyval) : bool :=
  match v with
  | VNone => false
  | VStr s => Py.truthy s
  | VInt n => negb (n =? 0)%Z
  | VBool b => b
  | VFloat (FFinite m _) => negb (m =? 0)%Z
  | VFloat _ => true
  | VOther b => b
  end.

(** An instance of a subclass of [Exception]: its type's name and [str(e)].
    [KeyboardInterrupt] and [SystemExit] are not errors and are not
    modelled. *)
Record exn : Type := Exn { exn_type : string; exn_str : str }.

Definition IndexError : exn :=
  Exn "IndexError" (lit "list index out of range").
Definition AttributeError_strip : exn :=
  Exn "AttributeError" (lit "'NoneType' object has no attribute 'strip'").

Module PyInt.

(** The code points of the digit zero of every decimal script (Unicode
    14.0, the version of Python 3.11); the nine after each are its digits one
    to nine. *)
Definition ZEROS : list N :=
  [48; 1632; 1776; 1984; 2406; 2534; 2662; 2790; 2918; 3046; 3174; 3302; 3430;
   3558; 3664; 3792; 3872; 4160; 4240; 6112; 6160; 6470; 6608; 6784; 6800; 6992;
   7088; 7232; 7248; 42528; 43216; 43264; 43472; 43504; 43600; 44016; 65296;
   66720; 68912; 69734; 69872; 69942; 70096; 70384; 70736; 70864; 71248; 71360;
   71472; 71904; 72016; 72784; 73040; 73120; 92768; 92864; 93008; 120782; 120792;
   120802; 120812; 120822; 123200; 123632; 125264; 130032].

Fixpoint digit_in (zeros : list N) (c : N) : option Z :=
  match zeros with
  | [] => None
  | z :: rest =>
      if (z <=? c) && (c <=? z + 9) then Some (Z.of_N (c - z)) else digit_in rest c
  end.

(** The value of a decimal digit, ASCII or not. *)
Definition digit (c : N) : option Z := digit_in ZEROS c.

(** [sys.get_int_max_str_digits()], at its default. *)
Definition MAX_STR_DIGITS : N := 4300.

(** Decimal digits, single underscores allowed between two digits: the
    value and the number of digits read. *)
Fixpoint digits (acc : Z) (count : N) (after_digit : bool) (s : str) : option (Z * N) :=
  match s with
  | [] => if after_digit then Some (acc, count) else None
  | c :: r =>
      if c =? 95 then
        if after_digit then digits acc count false r else None
      else
        match digit c with
        | Some d => digits (10 * acc + d)%Z (count + 1) true r
        | None => None
        end
  end.

(** A literal without its sign: at most [MAX_STR_DIGITS] digits. *)
Definition unsigned (s : str) : option Z :=
  match digits 0 0 false s with
  | Some (n, count) => if count <=? MAX_STR_DIGITS then Some n else None
  | None => None
  end.

(** The whitespace [int] skips at both ends: that of [str.isspace] without
    the four separators U+001C to U+001F. *)
Definition skipped (c : N) : bool :=
  Py.isspace c && negb ((28 <=? c) && (c <=? 31)).

(** [int(s)] for a string: surrounding whitespace, an optional sign, a
    decimal literal.  [None] stands for the [ValueError]. *)
Definition of_str (s : str) : option Z :=
  match Py.strip_by skipped s with
  | [] => None
  | c :: r =>
      if c =? 45 then Z.opp <$> unsigned r
      else if c =? 43 then unsigned r
      else unsigned (c :: r)
  end.

(** [int(f)] for a float: the number without its fraction; [None] stands
    for the [OverflowError] of an infinity and the [ValueError] of a NaN. *)
Definition of_float (f : pyfloat) : option Z :=
  match f with
  | FFinite m e =>
      if (0 <=? e)%Z then Some (m * 2 ^ e)%Z else Some (m ÷ 2 ^ (- e))%Z
  | FInf | FNan => None
  end.

(** [int(v)]; [None] stands for the [ValueError], [OverflowError] or
    [TypeError]. *)
Definition int (v : pyval) : option Z :=
  match v with
  | VInt n => Some n
  | VBool b => Some (if b then 1 else 0)%Z
  | VFloat f => of_float f
  | VStr s => of_str s
  | VNone | VOther _ => None
  end.

End PyInt.

(** [os.getenv(key, default)] over [os.environ]. *)
Definition getenv (environ : gmap str str) (key : str) (default : pyval) : pyval :=
  match environ !! key with
  | Some s => VStr s
  | None => default
  end.

(** [st.secrets.get(key, default)] *)
Definition secrets_get (secrets : gmap str pyval) (key : str) (default : pyval) : pyval :=
  match secrets !! key with
  | Some v => v
  | None => default
  end.

(** ** Configuration (lines 11 to 16) *)

Record config : Type := Config {
  PINECONE_API_KEY : pyval;
  OPENAI_API_KEY : pyval;
  INDEX_NAME : pyval;
  NAMESPACE : pyval;
  EMBED_MODEL : pyval;
  TOP_K : Z
}.

Section Configuration.

Variable secrets : gmap str pyval.
Variable environ : gmap str str.

Definition pinecone_api_key : pyval :=
  secrets_get secrets (lit "PINECONE_API_KEY") (getenv environ (lit "PINECONE_API_KEY") VNone).
Definition openai_api_key : pyval :=
  secrets_get secrets (lit "OPENAI_API_KEY") (getenv environ (lit "OPENAI_API_KEY") VNone).
Definition index_name : pyval :=
  secrets_get secrets (lit "INDEX_NAME") (getenv environ (lit "INDEX_NAME") (VStr (lit "aquestia"))).
Definition namespace : pyval :=
  secrets_get secrets (lit "NAMESPACE") (getenv environ (lit "NAMESPACE") (VStr (lit "v1"))).
Definition embed_model : pyval :=
  secrets_get secrets (lit "EMBED_MODEL")
    (getenv environ (lit "EMBED_MODEL") (VStr (lit "text-embedding-3-large"))).
Definition top_k_source : pyval :=
  secrets_get secrets (lit "TOP_K") (getenv environ (lit "TOP_K") (VInt 20)).

(** The six assignments; [None] when [int] raises on line 16. *)
Definition load_config : option config :=
  match PyInt.int top_k_source with
  | Some k =>
      Some {| PINECONE_API_KEY := pinecone_api_key;
              OPENAI_API_KEY := openai_api_key;
              INDEX_NAME := index_name;
              NAMESPACE := namespace;
              EMBED_MODEL := embed_model;
              TOP_K := k |}
  | None => None
  end.

End Configuration.

(** ** The pipeline: providers, events and [ask] *)

(** The separator of line 52. *)
Definition SEP : str := lit "

---

".

(** The f-string of lines 54 to 66 before [textwrap.dedent]: the template
    as it stands in the source, eight spaces before each line of text and
    four before the closing quotes, with the two values put in. *)
Definition template (context_text question : str) : str :=
  lit "
        You are Pipe" ++ [8209] ++ lit "Spec Assistant.
        Answer the user's question **only** with information in the context.
        Try to give the best answer possible. If you really don't know say you don't know, but still try to provide some value.

        ### Context
        " ++ context_text ++ lit "

        ### Question
        " ++ question ++ lit "

        ### Answer
    ".

(** Lines 54 to 66. *)
Definition build_prompt (context_text question : str) : str :=
  Textwrap.dedent (template context_text question).

Section Pipeline.

(** The numbers of an embedding vector pass through untouched, and the
    providers answer from a state of their own. *)
Context {float : Type} {W : Type}.

Record Embedding : Type := { embedding : list float }.
Record CreateEmbeddingResponse : Type := { data : list Embedding }.

Record ScoredVector : Type := {
  id : str;
  score : float;
  metadata : gmap str str
}.
Record QueryResponse : Type := { matches : list ScoredVector }.

Record ChatMessage : Type := { content : option str }.
Record Choice : Type := { message : ChatMessage }.
Record ChatCompletion : Type := { choices : list Choice }.

(** One entry of [messages]. *)
Record message_param : Type := { mp_role : str; mp_content : str }.

(** What the script does to the outside: Streamlit calls, the construction
    of the clients, and the three provider calls with their arguments. *)
Inductive event : Type :=
  | StSetPageConfig
  | StTitle (body : str)
  | StMarkdown (body : str)
  | StTextArea (label : str)
  | StButton (label : str)
  | StSpinner (text : str)
  | StWrite (body : str)
  | StError (body : str)
  | StStop
  | StExpander (label : str)
  | StTextInput (label : str) (value : pyval)
  | StNumberInput (label : str) (value : Z)
  | NewPinecone (api_key : pyval)
  | PineconeIndex (name : pyval)
  | NewOpenAI (api_key : pyval)
  | EmbeddingsCreate (model : pyval) (input : str)
  | IndexQuery (vector : list float) (top_k : Z) (ns : pyval) (include_metadata : bool)
  | ChatCompletionsCreate (model : str) (messages : list message_param) (temperature : Z).

Definition is_provider_call (e : event) : bool :=
  match e with
  | EmbeddingsCreate _ _ | IndexQuery _ _ _ _ | ChatCompletionsCreate _ _ _ => true
  | _ => false
  end.

Definition is_client_construction (e : event) : bool :=
  match e with
  | NewPinecone _ | PineconeIndex _ | NewOpenAI _ => true
  | _ => false
  end.

Definition is_st_error (e : event) : bool :=
  match e with
  | StError _ => true
  | _ => false
  end.

(** The three remote services: each call returns a response or raises,
    and moves the providers' state. *)
Record providers : Type := {
  embeddings_create : pyval -> str -> W -> (exn + CreateEmbeddingResponse) * W;
  index_query : list float -> Z -> pyval -> bool -> W -> (exn + QueryResponse) * W;
  chat_completions_create :
    str -> list message_param -> Z -> W -> (exn + ChatCompletion) * W
}.

(** *** Computations that call out, log and may raise *)

Record state : Type := State { world : W; log : list event }.

Definition M (A : Type) : Type := state -> (exn + A) * state.

Definition ret {A} (a : A) : M A := fun s => (inr a, s).

Definition raise {A} (e : exn) : M A := fun s => (inl e, s).

Definition bind {A B} (m : M A) (k : A -> M B) : M B :=
  fun s =>
    match m s with
    | (inr a, s') => k a s'
    | (inl e, s') => (inl e, s')
    end.

(** [try: body  except Exception as e: handler(e)] *)
Definition try_except {A} (body : M A) (handler : exn -> M A) : M A :=
  fun s =>
    match body s with
    | (inr a, s') => (inr a, s')
    | (inl e, s') => handler e s'
    end.

(** A Streamlit call or the construction of a client: logged; these are
    taken not to raise. *)
Definition emit (e : event) : M unit :=
  fun s => (inr tt, {| world := world s; log := log s ++ [e] |}).

(** A provider call: logged, then answered by the provider. *)
Definition call {A} (e : event) (f : W -> (exn + A) * W) : M A :=
  fun s =>
    let '(r, w) := f (world s) in
    (r, {| world := w; log := log s ++ [e] |}).

(** [xs[0]] *)
Definition first {A} (xs : list A) : M A :=
  match xs with
  | x :: _ => ret x
  | [] => raise IndexError
  end.

End Pipeline.

Arguments event : clear implicits.
Arguments providers : clear implicits.
Arguments state : clear implicits.
Arguments M : clear implicits.
Arguments ScoredVector : clear implicits.
Arguments QueryResponse : clear implicits.
Arguments Embedding : clear implicits.
Arguments CreateEmbeddingResponse : clear implicits.

(** [M] with stdpp's monad notations: [x ← m; k] and [m;; k]. *)
#[global] Instance M_ret {float W : Type} : MRet (M float W) :=
  fun A a => ret a.
#[global] Instance M_bind {float W : Type} : MBind (M float W) :=
  fun A B k m => bind m k.

(** ** [ask] and [main] *)

Section Script.

Context {float W : Type}.

(** The module-level names [client] and [index] (the providers behind
    them) and the configuration constants. *)
Variable P : providers float W.
Variable cfg : config.

(** Line 51: [[m.metadata.get("text", "") for m in res.matches]] *)
Definition context_chunks (ms : list (ScoredVector float)) : list str :=
  map (fun m => default (lit "") (metadata m !! lit "text")) ms.

(** Line 52 *)
Definition context_text (ms : list (ScoredVector float)) : str :=
  Py.join SEP (context_chunks ms).

Definition ask (question : str) : M float W str :=
  (* 1) embed the question *)
  resp ← call (EmbeddingsCreate (EMBED_MODEL cfg) question)
            (embeddings_create P (EMBED_MODEL cfg) question);
  item ← first (data resp);
  let q_vec := embedding item in
  (* 2) vector search *)
  res ← call (IndexQuery q_vec (TOP_K cfg) (NAMESPACE cfg) true)
           (index_query P q_vec (TOP_K cfg) (NAMESPACE cfg) true);
  (* 3) build the context *)
  let prompt := build_prompt (context_text (matches res)) question in
  (* 4) call the model *)
  let messages := [{| mp_role := lit "user"; mp_content := prompt |}] in
  chat_resp ← call (ChatCompletionsCreate (lit "gpt-4o") messages 0)
                 (chat_completions_create P (lit "gpt-4o") messages 0);
  choice ← first (choices chat_resp);
  match content (message choice) with
  | Some c => mret (Py.strip c)
  | None => raise AttributeError_strip
  end.

(** What the user did before this run of the script: the text in the text
    area and whether the button was pressed. *)
Record ui_input : Type := { ui_question : str; ui_pressed : bool }.

Definition TITLE : str := [128736; 65039] ++ lit " Pipe" ++ [8209] ++ lit "Spec Assistant".
Definition INTRO : str := lit "Ask any question about AQUESTIA pipe specifications or related docs.
The assistant will answer **only** using information retrieved from the knowledge base.".
Definition ERROR_PREFIX : str := [10060] ++ lit " An error occurred: ".

Definition main (ui : ui_input) : M float W unit :=
  emit StSetPageConfig;;
  emit (StTitle TITLE);;
  emit (StMarkdown INTRO);;
  emit (StTextArea (lit "Your question:"));;
  let question := ui_question ui in
  emit (StButton (lit "Ask"));;
  (if ui_pressed ui && Py.truthy (Py.strip question) then
     emit (StSpinner (lit "Thinking..."));;
     try_except
       (answer ← ask question;
        emit (StMarkdown (lit "### Answer"));;
        emit (StWrite answer))
       (fun e => emit (StError (ERROR_PREFIX ++ exn_str e)))
   else mret tt);;
  emit (StExpander ([8505; 65039] ++ lit "  Show advanced settings / debug"));;
  emit (StTextInput (lit "Pinecone Index") (INDEX_NAME cfg));;
  emit (StTextInput (lit "Namespace") (NAMESPACE cfg));;
  emit (StNumberInput (lit "Top" ++ [8209] ++ lit "K") (TOP_K cfg));;
  emit (StTextInput (lit "Embedding Model") (EMBED_MODEL cfg)).

(** The runs of [main] one after the other, one per interaction; an
    exception that leaves a run ends the sequence. *)
Fixpoint session (uis : list ui_input) : M float W unit :=
  match uis with
  | [] => mret tt
  | ui :: rest => main ui;; session rest
  end.

End Script.

(** ** Start-up (lines 11 to 27) *)

Definition MISSING_KEYS : str :=
  [9888; 65039] ++ lit "  Missing API keys for Pinecone and/or OpenAI. Add them to Streamlit secrets or environment variables and restart the app.".

Inductive startup_outcome : Type :=
  | IntRaised
  | Stopped
  | Ready (cfg : config).

(** The module-level code before [ask] is defined: what it does and how it
    ends. *)
Definition startup {float : Type} (secrets : gmap str pyval) (environ : gmap str str)
  : list (event float) * startup_outcome :=
  match load_config secrets environ with
  | None => ([], IntRaised)
  | Some cfg =>
      if negb (truthy (PINECONE_API_KEY cfg)) || negb (truthy (OPENAI_API_KEY cfg)) then
        ([StError MISSING_KEYS; StStop], Stopped)
      else
        ([NewPinecone (PINECONE_API_KEY cfg);
          PineconeIndex (INDEX_NAME cfg);
          NewOpenAI (OPENAI_API_KEY cfg)], Ready cfg)
  end.

(** * Notions the claims are stated with *)

(** [prefix ++ first piece], the other pieces as they are. *)
Definition glue (p : str) (pieces : list str) : list str :=
  match pieces with
  | l :: ls => (p ++ l) :: ls
  | [] => [p]
  end.

(** ** The lines of the template *)

Definition INDENT8 : str := replicate 8 SPACE.
Definition INDENT4 : str := replicate 4 SPACE.

Definition LINE_ROLE : str := lit "You are Pipe" ++ [8209] ++ lit "Spec Assistant.".
Definition LINE_ONLY : str :=
  lit "Answer the user's question **only** with information in the context.".
Definition LINE_TRY : str :=
  lit "Try to give the best answer possible. If you really don't know say you don't know, but still try to provide some value.".
Definition HEADING_CONTEXT : str := lit "### Context".
Definition HEADING_QUESTION : str := lit "### Question".
Definition HEADING_ANSWER : str := lit "### Answer".

(** A non-empty line with no leading whitespace: it starts with a
    character other than space and tab. *)
Definition unindented (l : str) : bool :=
  match l with
  | c :: _ => negb (Textwrap.is_blank_char c)
  | [] => false
  end.

(** The six lines of text of the template: the three instruction lines and
    the three headings. *)
Definition FIXED_LINES : list str :=
  [LINE_ROLE; LINE_ONLY; LINE_TRY; HEADING_CONTEXT; HEADING_QUESTION; HEADING_ANSWER].

(** The lines of the template before the context, between the context and
    the question, and after the question. *)
Definition head_lines : list str :=
  [[]; INDENT8 ++ LINE_ROLE; INDENT8 ++ LINE_ONLY; INDENT8 ++ LINE_TRY; [];
   INDENT8 ++ HEADING_CONTEXT].
Definition mid_lines : list str := [[]; INDENT8 ++ HEADING_QUESTION].
Definition tail_lines : list str := [[]; INDENT8 ++ HEADING_ANSWER; INDENT4].

(** [a == b] on strings. *)
Fixpoint str_eqb (a b : str) : bool :=
  match a, b with
  | [], [] => true
  | x :: a', y :: b' => (x =? y) && str_eqb a' b'
  | _, _ => false
  end.

(** The prompt still has each line of text of the template behind its eight
    spaces. *)
Definition keeps_source_indentation (prompt : str) : bool :=
  forallb (fun l => existsb (str_eqb (INDENT8 ++ l)) (Py.split NL prompt)) FIXED_LINES.

(** Some line of [s] is non-empty and has no leading whitespace. *)
Definition has_unindented_line (s : str) : bool :=
  existsb unindented (Py.split NL s).

(** The same for a line of [s] after its first. *)
Definition has_unindented_later_line (s : str) : bool :=
  existsb unindented (tail (Py.split NL s)).

(** Some line of [s] starts with a space. *)
Definition has_indented_line (s : str) : bool :=
  existsb (fun l => Py.startswith l [SPACE]) (Py.split NL s).

(** The text of a match: the value under [text] in its metadata, the empty
    string for a match without one. *)
Definition match_text {float : Type} (m : ScoredVector float) : str :=
  match metadata m !! lit "text" with
  | Some t => t
  | None => []
  end.

(** What [ask] makes of the outcome of the generation call (line 75). *)
Definition answer_of (r : exn + ChatCompletion) : exn + str :=
  match r with
  | inl e => inl e
  | inr chat_resp =>
      match choices chat_resp with
      | [] => inl IndexError
      | choice :: _ =>
          match content (message choice) with
          | Some c => inr (Py.strip c)
          | None => inl AttributeError_strip
          end
      end
  end.

(** The messages of the generation call for a context and a question. *)
Definition messages_for (context question : str) : list message_param :=
  [{| mp_role := lit "user"; mp_content := build_prompt context question |}].

(** ** What [main] shows *)

Section Shown.

Context {float W : Type}.

(** The Streamlit calls of [main] up to the button. *)
Definition page_header : list (event float) :=
  [StSetPageConfig; StTitle TITLE; StMarkdown INTRO;
   StTextArea (lit "Your question:"); StButton (lit "Ask")].

(** The expander with the four read-only fields. *)
Definition debug_panel (cfg : config) : list (event float) :=
  [StExpander ([8505; 65039] ++ lit "  Show advanced settings / debug");
   StTextInput (lit "Pinecone Index") (INDEX_NAME cfg);
   StTextInput (lit "Namespace") (NAMESPACE cfg);
   StNumberInput (lit "Top" ++ [8209] ++ lit "K") (TOP_K cfg);
   StTextInput (lit "Embedding Model") (EMBED_MODEL cfg)].

(** What the [try] statement shows for an outcome of [ask]. *)
Definition shown (r : exn + str) : list (event float) :=
  match r with
  | inr answer => [StMarkdown (lit "### Answer"); StWrite answer]
  | inl e => [StError (ERROR_PREFIX ++ exn_str e)]
  end.

(** The first event of every run of [main]. *)
Definition is_run_start (e : event float) : bool :=
  match e with
  | StSetPageConfig => true
  | _ => false
  end.

(** One of the three provider calls of [ask question], started in the
    providers' state [w], raises [e]. *)
Inductive provider_raises (P : providers float W) (cfg : config) (question : str)
    (w : W) (e : exn) : Prop :=
  | embedding_raises w1 :
      embeddings_create P (EMBED_MODEL cfg) question w = (inl e, w1) ->
      provider_raises P cfg question w e
  | search_raises resp w1 item rest w2 :
      embeddings_create P (EMBED_MODEL cfg) question w = (inr resp, w1) ->
      data resp = item :: rest ->
      index_query P (embedding item) (TOP_K cfg) (NAMESPACE cfg) true w1 = (inl e, w2) ->
      provider_raises P cfg question w e
  | generation_raises resp w1 item rest res w2 w3 :
      embeddings_create P (EMBED_MODEL cfg) question w = (inr resp, w1) ->
      data resp = item :: rest ->
      index_query P (embedding item) (TOP_K cfg) (NAMESPACE cfg) true w1 = (inr res, w2) ->
      chat_completions_create P (lit "gpt-4o")
        (messages_for (context_text (matches res)) question) 0 w2 = (inl e, w3) ->
      provider_raises P cfg question w e.

End Shown.

(** ** Provider calls in a log *)

Inductive call_kind : Type := EmbedCall | SearchCall | GenerateCall.

Definition kind_of {float : Type} (e : event float) : option call_kind :=
  match e with
  | EmbeddingsCreate _ _ => Some EmbedCall
  | IndexQuery _ _ _ _ => Some SearchCall
  | ChatCompletionsCreate _ _ _ => Some GenerateCall
  | _ => None
  end.

Definition call_kinds {float : Type} (evs : list (event float)) : list call_kind :=
  omap kind_of evs.

(** ** The fallback chain of the configuration, in the words of the
    specification: the first source that has the key, else the default. *)
Fixpoint fallback (sources : list (option pyval)) (default : pyval) : pyval :=
  match sources with
  | Some v :: _ => v
  | None :: rest => fallback rest default
  | [] => default
  end.

Definition resolve (secrets : gmap str pyval) (environ : gmap str str)
    (key : str) (default : pyval) : pyval :=
  fallback [secrets !! key; VStr <$> environ !! key] default.

(** ** Sample providers and inputs

    Vector entries and scores are integers here; [steady] answers the same
    at every call, [flaky] fails its first embedding call and counts the
    calls it has seen. *)

Module Sample.

Definition cfg : config :=
  {| PINECONE_API_KEY := VStr (lit "pc-key");
     OPENAI_API_KEY := VStr (lit "sk-key");
     INDEX_NAME := VStr (lit "aquestia");
     NAMESPACE := VStr (lit "v1");
     EMBED_MODEL := VStr (lit "text-embedding-3-large");
     TOP_K := 20 |}.

Definition one_embedding : CreateEmbeddingResponse Z :=
  {| data := [ {| embedding := [1; 2; 3]%Z |} ] |}.

Definition answer (text : str) : ChatCompletion :=
  {| choices := [ {| message := {| content := Some text |} |} ] |}.

Definition with_text (i : str) (text : str) : ScoredVector Z :=
  {| id := i; score := 1%Z; metadata := {[ lit "text" := text ]} |}.

Definition without_text (i : str) : ScoredVector Z :=
  {| id := i; score := 1%Z; metadata := {[ lit "source" := lit "catalogue.pdf" ]} |}.

Definition steady (found : list (ScoredVector Z)) : providers Z unit :=
  {| embeddings_create := fun _ _ w => (inr one_embedding, w);
     index_query := fun _ _ _ _ w => (inr {| matches := found |}, w);
     chat_completions_create :=
       fun _ _ _ w => (inr (answer (lit " 150 psi. ")), w) |}.

Definition connection_error : exn := Exn "APIConnectionError" (lit "Connection error.").

Definition failing_embedding : providers Z unit :=
  {| embeddings_create := fun _ _ w => (inl connection_error, w);
     index_query := fun _ _ _ _ w => (inr {| matches := [] |}, w);
     chat_completions_create :=
       fun _ _ _ w => (inr (answer (lit " 150 psi. ")), w) |}.

Definition flaky : providers Z nat :=
  {| embeddings_create :=
       fun _ _ w =>
         match w with
         | O => (inl connection_error, S w)
         | S _ => (inr one_embedding, S w)
         end;
     index_query := fun _ _ _ _ w => (inr {| matches := [] |}, S w);
     chat_completions_create :=
       fun _ _ _ w => (inr (answer (lit " I don't know. ")), S w) |}.

(** Providers whose responses lack what [ask] reads from them. *)
Definition no_embedding : providers Z unit :=
  {| embeddings_create := fun _ _ w => (inr {| data := [] |}, w);
     index_query := fun _ _ _ _ w => (inr {| matches := [] |}, w);
     chat_completions_create :=
       fun _ _ _ w => (inr (answer (lit " 150 psi. ")), w) |}.

Definition no_choice : providers Z unit :=
  {| embeddings_create := fun _ _ w => (inr one_embedding, w);
     index_query := fun _ _ _ _ w => (inr {| matches := [] |}, w);
     chat_completions_create := fun _ _ _ w => (inr {| choices := [] |}, w) |}.

Definition start {W : Type} (w : W) : state Z W := {| world := w; log := [] |}.

End Sample.

(** ** Proof steps for the computations in [M] *)

(** Unfolds [ask] down to the provider calls. *)
Ltac run_ask :=
  unfold ask, mbind, M_bind, bind, call, first, mret, M_ret, ret, raise; simpl.

(** Runs the Streamlit calls of [main], leaving [ask] and the texts folded. *)
Ltac run_main :=
  cbn -[lit ask Py.strip Py.truthy TITLE INTRO ERROR_PREFIX app].

(** * Properties *)

(** ** Strings: [startswith], [split], [join], [strip] *)

Section PyFacts.

Import Py.

Lemma startswith_prefix (s p : str) : startswith s p = true <-> p `prefix_of` s.
Proof.
  revert s. induction p as [|a p IH]; intros s; simpl.
  - split; [intros _; apply prefix_nil | by destruct s].
  - destruct s as [|b s].
    + split; [discriminate | intros H; apply prefix_nil_inv in H; discriminate].
    + simpl. rewrite andb_true_iff, N.eqb_eq, IH. split.
      * intros [-> H]. by apply prefix_cons.
      * intros H. split; [by apply prefix_cons_inv_1 in H | by apply prefix_cons_inv_2 in H].
Qed.

Lemma startswith_app (p r : str) : startswith (p ++ r) p = true.
Proof. apply startswith_prefix. by apply prefix_app_r. Qed.

Lemma split_not_nil (c : N) (s : str) : split c s <> [].
Proof.
  induction s as [|x r IH]; simpl; [discriminate|].
  destruct (x =? c); [discriminate|]. destruct (split c r); discriminate.
Qed.

(** Splitting at a separator splits the list of pieces. *)
Lemma split_app_sep (c : N) (a b : str) :
  split c (a ++ c :: b) = split c a ++ split c b.
Proof.
  induction a as [|x a IH]; simpl.
  - by rewrite N.eqb_refl.
  - rewrite IH. destruct (x =? c); [reflexivity|].
    pose proof (split_not_nil c a) as Hne.
    destruct (split c a); [congruence | reflexivity].
Qed.

Lemma split_app_nosep (c : N) (a b : str) :
  Forall (fun x => x <> c) a -> split c (a ++ b) = glue a (split c b).
Proof.
  induction 1 as [|x a Hx _ IH]; simpl.
  - pose proof (split_not_nil c b). by destruct (split c b).
  - apply N.eqb_neq in Hx. rewrite Hx, IH.
    pose proof (split_not_nil c b). by destruct (split c b).
Qed.

Lemma join_cons (sep p : str) (ps : list str) :
  ps <> [] -> join sep (p :: ps) = p ++ sep ++ join sep ps.
Proof. by destruct ps. Qed.

Lemma join_app (sep : str) (ps qs : list str) :
  ps <> [] -> qs <> [] -> join sep (ps ++ qs) = join sep ps ++ sep ++ join sep qs.
Proof.
  intros Hp Hq. induction ps as [|p ps IH]; [congruence|].
  destruct ps as [|p' ps].
  - simpl app. by rewrite join_cons.
  - change ((p :: p' :: ps) ++ qs) with (p :: (p' :: ps) ++ qs).
    rewrite !join_cons by done. rewrite IH by done. by rewrite <- !app_assoc.
Qed.

Lemma join_split (c : N) (s : str) : join [c] (split c s) = s.
Proof.
  induction s as [|x r IH]; [reflexivity|]. simpl split.
  destruct (x =? c) eqn:E.
  - apply N.eqb_eq in E. subst x.
    rewrite join_cons by apply split_not_nil. by rewrite IH.
  - pose proof (split_not_nil c r) as Hne.
    destruct (split c r) as [|l ls]; [congruence|].
    destruct ls as [|l' ls]; simpl in *; by rewrite <- IH.
Qed.

(** The pieces of a split hold no separator. *)
Lemma split_pieces (c : N) (s : str) :
  Forall (Forall (fun x => x <> c)) (split c s).
Proof.
  induction s as [|x r IH]; simpl; [by repeat constructor|].
  destruct (x =? c) eqn:E; [by constructor|].
  apply N.eqb_neq in E.
  destruct (split c r) as [|l ls]; [by repeat constructor|].
  inversion IH; subst. constructor; [by constructor | done].
Qed.

Lemma length_join (sep : str) (ps : list str) :
  length (join sep ps) =
    (list_sum (map length ps) + (length ps - 1) * length sep)%nat.
Proof.
  induction ps as [|p ps IH]; [reflexivity|].
  destruct ps as [|p' ps]; [simpl; lia|].
  rewrite join_cons by done. rewrite !length_app, IH. simpl. lia.
Qed.

Lemma lstrip_by_all (p : N -> bool) (s : str) :
  Forall (fun c => p c = true) s -> lstrip_by p s = [].
Proof. induction 1 as [|c s Hc _ IH]; simpl; [done | by rewrite Hc]. Qed.

Lemma lstrip_by_nil_all (p : N -> bool) (s : str) :
  lstrip_by p s = [] -> Forall (fun c => p c = true) s.
Proof.
  induction s as [|c s IH]; simpl; [constructor|].
  destruct (p c) eqn:E; [intros H; constructor; auto | discriminate].
Qed.

Lemma lstrip_by_head (p : N -> bool) (s : str) (c : N) (r : str) :
  lstrip_by p s = c :: r -> p c = false.
Proof.
  induction s as [|x s IH]; simpl; [discriminate|].
  destruct (p x) eqn:E; [done|]. intros [= <- _]. done.
Qed.

(** [s.strip()] is empty exactly for the empty and the whitespace-only [s]. *)
Lemma strip_nil_iff (s : str) :
  strip s = [] <-> Forall (fun c => isspace c = true) s.
Proof.
  unfold strip, strip_by, rstrip_by. split.
  - intros H. apply (f_equal (@rev N)) in H. rewrite rev_involutive in H.
    simpl in H. apply lstrip_by_nil_all in H.
    apply Forall_rev in H. rewrite rev_involutive in H.
    destruct (lstrip_by isspace s) as [|c r] eqn:E; [by apply lstrip_by_nil_all|].
    apply lstrip_by_head in E. inversion H; subst. congruence.
  - intros H. by rewrite (lstrip_by_all _ _ H).
Qed.

End PyFacts.

Lemma split_single (c : N) (p : str) :
  Forall (fun x => x <> c) p -> Py.split c p = [p].
Proof.
  intros H. rewrite <- (app_nil_r p) at 1.
  rewrite (split_app_nosep c p [] H). simpl. by rewrite app_nil_r.
Qed.

(** Joining lines and splitting again gives the lines back. *)
Lemma split_join (c : N) (ls : list str) :
  ls <> [] -> Forall (Forall (fun x => x <> c)) ls ->
  Py.split c (Py.join [c] ls) = ls.
Proof.
  intros Hne H. induction H as [|l ls Hl Hls IH]; [congruence|].
  destruct ls as [|l' ls].
  - by apply split_single.
  - rewrite join_cons by done.
    change (l ++ [c] ++ ?x) with (l ++ c :: x).
    rewrite split_app_sep, split_single by done.
    by rewrite IH.
Qed.

(** ** [textwrap.dedent]: the margin is a common prefix of the indents *)

Section DedentFacts.

Import Textwrap.

Lemma cut_at_difference_common (m i : str) :
  Py.startswith m i = false ->
  cut_at_difference m i `prefix_of` m /\ cut_at_difference m i `prefix_of` i.
Proof.
  revert i. induction m as [|x m IH]; intros i H; simpl.
  - split; apply prefix_nil.
  - destruct i as [|y i]; [discriminate|]. simpl in H.
    destruct (x =? y) eqn:E.
    + apply N.eqb_eq in E. subst y. rewrite N.eqb_refl in H. simpl in H.
      destruct (IH i H). split; by apply prefix_cons.
    + split; apply prefix_nil.
Qed.

Lemma margin_step_common (m i : str) :
  exists m', margin_step (Some m) i = Some m' /\ m' `prefix_of` m /\ m' `prefix_of` i.
Proof.
  unfold margin_step.
  destruct (Py.startswith i m) eqn:E1.
  - exists m. by apply startswith_prefix in E1.
  - destruct (Py.startswith m i) eqn:E2.
    + exists i. by apply startswith_prefix in E2.
    + exists (cut_at_difference m i). split; [done|].
      by apply cut_at_difference_common.
Qed.

Lemma fold_margin_common (inds : list str) (m : str) :
  exists m', fold_left margin_step inds (Some m) = Some m'
             /\ m' `prefix_of` m /\ Forall (fun i => m' `prefix_of` i) inds.
Proof.
  revert m. induction inds as [|i inds IH]; intros m; cbn [fold_left].
  - by exists m.
  - destruct (margin_step_common m i) as (m1 & -> & Hm & Hi).
    destruct (IH m1) as (m2 & -> & H2 & Hall).
    exists m2. split; [done|]. split; [by etrans|].
    constructor; [by etrans | done].
Qed.

(** The margin [dedent] settles on is a prefix of the indent of every line
    that has text. *)
Lemma margin_of_common (ls : list str) (m : str) :
  margin_of ls = Some m -> Forall (fun i => m `prefix_of` i) (indents ls).
Proof.
  unfold margin_of. destruct (indents ls) as [|i inds]; [discriminate|].
  cbn [fold_left]. change (margin_step None i) with (Some i).
  destruct (fold_margin_common inds i) as (m' & -> & Hm & Hall).
  intros [= <-]. by constructor.
Qed.

Lemma margin_of_some (ls : list str) :
  indents ls <> [] -> exists m, margin_of ls = Some m.
Proof.
  unfold margin_of. destruct (indents ls) as [|i inds]; [congruence|].
  intros _. cbn [fold_left]. change (margin_step None i) with (Some i).
  destruct (fold_margin_common inds i) as (m' & -> & _). eauto.
Qed.

Lemma blank_line_cases (l : str) :
  (after_leading l = [] /\ blank_line l = []) \/ (after_leading l <> [] /\ blank_line l = l).
Proof.
  unfold blank_line. destruct (after_leading l); [by left | by right].
Qed.

Lemma indents_blank_line (ls : list str) :
  indents (map blank_line ls) = indents ls.
Proof.
  induction ls as [|l ls IH]; [reflexivity|]. simpl.
  destruct (blank_line_cases l) as [[E ->]|[E ->]].
  - by rewrite E.
  - by rewrite IH.
Qed.

Lemma indents_elem (ls : list str) (l : str) :
  l ∈ ls -> after_leading l <> [] -> leading l ∈ indents ls.
Proof.
  induction 1 as [l ls|l l' ls _ IH]; intros H; simpl.
  - destruct (after_leading l); [congruence | left].
  - destruct (after_leading l'); [auto | right; auto].
Qed.

Lemma strip_margin_nil (l : str) : strip_margin [] l = l.
Proof. unfold strip_margin. by destruct l. Qed.

Lemma strip_margin_empty (m : str) : strip_margin m [] = [].
Proof. unfold strip_margin. by destruct m. Qed.

Lemma strip_margin_app (m r : str) : strip_margin m (m ++ r) = r.
Proof.
  unfold strip_margin. rewrite startswith_app. by rewrite drop_app_length.
Qed.

(** [dedent], line by line. *)
Lemma dedent_lines (text : str) :
  let ls := map blank_line (Py.split NL text) in
  dedent text = Py.join [NL] (map (strip_margin (default [] (margin_of ls))) ls).
Proof.
  unfold dedent. cbv zeta.
  destruct (margin_of _) as [[|c m]|]; simpl default; try reflexivity.
  all: f_equal; rewrite <- (map_id (map blank_line _)) at 1;
       apply map_ext; intros l; by rewrite strip_margin_nil.
Qed.

(** Once a line with text starts at the left edge, nothing is removed but
    the spaces and tabs of whitespace-only lines. *)
Lemma dedent_unindented (text : str) (l : str) :
  l ∈ Py.split NL text -> after_leading l <> [] -> leading l = [] ->
  dedent text = Py.join [NL] (map blank_line (Py.split NL text)).
Proof.
  intros Hin Hafter Hlead. rewrite dedent_lines. cbv zeta.
  pose proof (indents_elem _ _ Hin Hafter) as Hi. rewrite Hlead in Hi.
  rewrite <- indents_blank_line in Hi.
  destruct (margin_of (map blank_line (Py.split NL text))) as [m|] eqn:E; simpl default.
  - apply margin_of_common in E. rewrite Forall_forall in E.
    specialize (E _ Hi). apply prefix_nil_inv in E. subst m.
    f_equal. rewrite <- (map_id (map blank_line _)) at 2.
    apply map_ext; intros x; by rewrite strip_margin_nil.
  - f_equal. rewrite <- (map_id (map blank_line _)) at 2.
    apply map_ext; intros x; by rewrite strip_margin_nil.
Qed.

End DedentFacts.

Section TemplateFacts.

Import Textwrap.

Lemma template_parts (c q : str) :
  template c q =
    Py.join [NL] head_lines ++ NL :: (INDENT8 ++ c) ++
    NL :: Py.join [NL] mid_lines ++ NL :: (INDENT8 ++ q) ++
    NL :: Py.join [NL] tail_lines.
Proof.
  unfold template.
  change (lit _ ++ [8209] ++ lit _ ++ c ++ lit _ ++ q ++ lit _)
    with ((Py.join [NL] head_lines ++ NL :: INDENT8) ++ c ++
          (NL :: Py.join [NL] mid_lines ++ NL :: INDENT8) ++ q ++
          (NL :: Py.join [NL] tail_lines)).
  rewrite <- !app_assoc. simpl. reflexivity.
Qed.

Lemma INDENT8_no_newline : Forall (fun x => x <> NL) INDENT8.
Proof. repeat constructor; discriminate. Qed.

(** The lines of the text that [dedent] receives: the first line of each
    inserted value follows eight spaces, its other lines stand alone. *)
Lemma template_lines (c q : str) :
  Py.split NL (template c q) =
    head_lines ++ glue INDENT8 (Py.split NL c) ++
    mid_lines ++ glue INDENT8 (Py.split NL q) ++ tail_lines.
Proof.
  rewrite template_parts, !split_app_sep.
  rewrite !split_app_nosep by apply INDENT8_no_newline.
  reflexivity.
Qed.

Lemma prefix_replicate (m : str) (n : nat) (x : N) :
  m `prefix_of` replicate n x ->
  exists j, (j <= n)%nat /\ m = replicate j x.
Proof.
  revert n. induction m as [|a m IH]; intros n H.
  - exists 0%nat. split; [lia | done].
  - destruct n as [|n]; [apply prefix_nil_inv in H; discriminate|].
    simpl in H. pose proof (prefix_cons_inv_1 _ _ _ _ H) as ->.
    apply prefix_cons_inv_2 in H. destruct (IH n H) as (j & Hj & ->).
    exists (S j). split; [lia | done].
Qed.

(** A line of the template that starts with text keeps what the margin
    leaves of its eight spaces. *)
Lemma strip_margin_fixed (j : nat) (x : N) (r : str) :
  (j <= 8)%nat -> is_blank_char x = false ->
  strip_margin (replicate j SPACE) (blank_line (INDENT8 ++ x :: r)) =
    replicate (8 - j) SPACE ++ x :: r.
Proof.
  intros Hj Hx.
  assert (blank_line (INDENT8 ++ x :: r) = INDENT8 ++ x :: r) as ->.
  { unfold blank_line, INDENT8. simpl. by rewrite Hx. }
  unfold INDENT8. replace 8%nat with (j + (8 - j))%nat at 1 by lia.
  rewrite replicate_add, <- app_assoc. apply strip_margin_app.
Qed.

Lemma strip_margin_text (j : nat) (l : str) :
  (j <= 8)%nat -> unindented l = true ->
  strip_margin (replicate j SPACE) (blank_line (INDENT8 ++ l)) =
    replicate (8 - j) SPACE ++ l.
Proof.
  destruct l as [|x r]; [discriminate|]. simpl. intros Hj Hx.
  apply strip_margin_fixed; [done|]. by destruct (is_blank_char x).
Qed.

Lemma glue_not_nil (p : str) (ls : list str) : glue p ls <> [].
Proof. by destruct ls. Qed.

End TemplateFacts.

(** ** The claims *)

Section Claims.

Import Textwrap.

Context {float W : Type}.

(** The margin that [dedent] finds in a filled template is made of at most
    eight spaces: the first instruction line bounds it. *)
Lemma template_margin (c q : str) :
  exists j, (j <= 8)%nat /\
    default [] (margin_of (map blank_line (Py.split NL (template c q)))) =
      replicate j SPACE.
Proof.
  destruct (margin_of _) as [m|] eqn:E; simpl default.
  - apply margin_of_common in E. rewrite indents_blank_line in E.
    rewrite Forall_forall in E.
    assert (INDENT8 ∈ indents (Py.split NL (template c q))) as Hin.
    { change INDENT8 with (leading (INDENT8 ++ LINE_ROLE)).
      apply indents_elem; [|intros H; vm_compute in H; discriminate H].
      rewrite template_lines. apply elem_of_app. left.
      unfold head_lines. set_solver. }
    apply prefix_replicate. by apply E.
  - exists 0%nat. split; [lia | done].
Qed.

(** C8. When the search returns no match the context block is the empty
    string, and the prompt is the template with nothing under its Context
    heading: the three instruction lines, an empty line, the Context
    heading, the empty context line and an empty line, the Question heading,
    the question's lines, an empty line, the Answer heading and a final
    newline, every line of the template behind the same run of at most
    eight spaces. *)
Theorem empty_search_prompt (question : str) :
  context_text (float:=float) [] = []
  /\ exists (k : nat) (body : str),
       (k <= 8)%nat /\
       let ind := replicate k SPACE in
       build_prompt (context_text (float:=float) []) question =
         [NL] ++ ind ++ LINE_ROLE ++ [NL] ++ ind ++ LINE_ONLY ++ [NL]
         ++ ind ++ LINE_TRY ++ [NL; NL]
         ++ ind ++ HEADING_CONTEXT ++ [NL; NL; NL]
         ++ ind ++ HEADING_QUESTION ++ [NL] ++ body ++ [NL; NL]
         ++ ind ++ HEADING_ANSWER ++ [NL].
Proof.
  split; [reflexivity|].
  change (context_text []) with (@nil N).
  destruct (template_margin [] question) as (j & Hj & Hm).
  exists (8 - j)%nat.
  exists (Py.join [NL] (map (fun l => strip_margin (replicate j SPACE) (blank_line l))
            (glue INDENT8 (Py.split NL question)))).
  split; [lia|]. cbv zeta.
  unfold build_prompt. rewrite dedent_lines. cbv zeta. rewrite Hm.
  rewrite template_lines.
  set (f := fun l => strip_margin (replicate j SPACE) (blank_line l)).
  rewrite map_map. fold f.
  set (qs := glue INDENT8 (Py.split NL question)).
  assert (map f qs <> []) as Hqs.
  { intros H. apply map_eq_nil in H. by apply glue_not_nil in H. }
  unfold head_lines, mid_lines, tail_lines. cbn [app glue Py.split].
  rewrite !map_cons, map_app.
  rewrite !join_cons by
    (done || (intros H; apply app_eq_nil in H as [H _]; done)).
  rewrite join_app by done.
  unfold f. cbn [map].
  change (blank_line []) with (@nil N).
  change (blank_line (INDENT8 ++ [])) with (@nil N).
  change (blank_line INDENT4) with (@nil N).
  rewrite !strip_margin_empty.
  rewrite !(strip_margin_text j) by (done || reflexivity).
  cbn [Py.join]. rewrite <- !app_assoc. reflexivity.
Qed.

Lemma str_eqb_refl (a : str) : str_eqb a a = true.
Proof. induction a as [|x a IH]; simpl; [done | by rewrite N.eqb_refl]. Qed.

Lemma existsb_elem (l : str) (ls : list str) :
  l ∈ ls -> existsb (str_eqb l) ls = true.
Proof.
  intros H. apply existsb_exists. exists l.
  split; [by apply list_elem_of_In | apply str_eqb_refl].
Qed.

Lemma unindented_leading (l : str) :
  unindented l = true -> after_leading l <> [] /\ leading l = [].
Proof.
  destruct l as [|x r]; [discriminate|]. simpl.
  destruct (is_blank_char x); [discriminate | done].
Qed.

Lemma blank_line_no_newline (l : str) :
  Forall (fun x => x <> NL) l -> Forall (fun x => x <> NL) (blank_line l).
Proof. destruct (blank_line_cases l) as [[_ ->]|[_ ->]]; [constructor | done]. Qed.

(** The lines of an inserted value after its first are lines of the text
    that [dedent] receives. *)
Lemma later_line_in_template (c q l : str) :
  l ∈ tail (Py.split NL c) \/ l ∈ tail (Py.split NL q) ->
  l ∈ Py.split NL (template c q).
Proof.
  rewrite template_lines. intros [H|H].
  - apply elem_of_app. right. apply elem_of_app. left.
    destruct (Py.split NL c); simpl in *; [by apply elem_of_nil in H | by right].
  - do 3 (apply elem_of_app; right). apply elem_of_app. left.
    destruct (Py.split NL q); simpl in *; [by apply elem_of_nil in H | by right].
Qed.

Lemma fixed_line_in_template (c q l : str) :
  l ∈ FIXED_LINES -> INDENT8 ++ l ∈ map blank_line (Py.split NL (template c q)).
Proof.
  intros H. rewrite template_lines, !map_app.
  unfold FIXED_LINES in H. rewrite !elem_of_cons in H.
  destruct H as [->|[->|[->|[->|[->|[->|H]]]]]]; [..|by apply elem_of_nil in H].
  1-4: apply elem_of_app; left; unfold head_lines; cbn [map].
  5: do 2 (apply elem_of_app; right); apply elem_of_app; left;
     unfold mid_lines; cbn [map].
  6: do 4 (apply elem_of_app; right); unfold tail_lines; cbn [map].
  all: match goal with
       | |- ?x ∈ _ => change x with (blank_line x)
       end; set_solver.
Qed.

(** A value with an unindented line after its first switches the
    dedentation off. *)
Lemma unindented_later_line_lines (c q : str) :
  has_unindented_later_line c = true \/ has_unindented_later_line q = true ->
  Py.split NL (build_prompt c q) = map blank_line (Py.split NL (template c q)).
Proof.
  intros H.
  assert (exists l, l ∈ Py.split NL (template c q) /\ unindented l = true)
    as (l & Hin & Hl).
  { unfold has_unindented_later_line in H. rewrite !existsb_exists in H.
    destruct H as [(l & Hin & Hl)|(l & Hin & Hl)]; exists l; (split; [|done]);
      apply later_line_in_template; rewrite <- !list_elem_of_In in *; auto. }
  apply unindented_leading in Hl as [Hafter Hlead].
  unfold build_prompt. rewrite (dedent_unindented _ l Hin Hafter Hlead).
  apply split_join.
  - intros E. apply map_eq_nil in E. by apply split_not_nil in E.
  - apply Forall_map. eapply Forall_impl; [apply split_pieces|].
    intros x. apply blank_line_no_newline.
Qed.

(** C10 (amended). The prompt is [textwrap.dedent] applied to the template
    with the context and the question already in it.  Whenever the context
    or the question has, after its first line, a non-empty line that starts
    with neither space nor tab, the dedentation removes nothing but the
    content of whitespace-only lines, and the six lines of text of the
    template keep the eight spaces they have in the source.  And for some
    question with a line indented by spaces those spaces are removed: with
    no context, the question "Max pressure?" followed by the line
    "  for valve X" is not in the prompt, the same two lines without the
    two spaces are. *)
Theorem dedent_after_interpolation :
  (forall c q, build_prompt c q = dedent (template c q))
  /\ (forall c q,
        has_unindented_later_line c = true \/ has_unindented_later_line q = true ->
        Py.split NL (build_prompt c q) = map blank_line (Py.split NL (template c q))
        /\ keeps_source_indentation (build_prompt c q) = true)
  /\ (let q := lit "Max pressure?
  for valve X" in
      has_indented_line q = true
      /\ Py.contains (build_prompt [] q) q = false
      /\ Py.contains (build_prompt [] q) (lit "Max pressure?
for valve X") = true).
Proof.
  split; [reflexivity|]. split.
  - intros c q H. pose proof (unindented_later_line_lines c q H) as E.
    split; [done|]. unfold keeps_source_indentation. rewrite E.
    apply forallb_forall. intros l Hl. apply existsb_elem.
    apply fixed_line_in_template. by apply list_elem_of_In.
  - by vm_compute.
Qed.

End Claims.

(** The dedentation at work on sample values. *)

Lemma dedent_after_interpolation_witness :
  has_unindented_later_line (lit "Valve X rated to 150 psi" ++ SEP ++ lit "Valve Y rated to 300 psi") = true
  /\ keeps_source_indentation
       (build_prompt (lit "Valve X rated to 150 psi" ++ SEP ++ lit "Valve Y rated to 300 psi")
          (lit "What is the max pressure for valve X?")) = true.
Proof.
  split; [reflexivity|].
  apply (proj1 (proj2 dedent_after_interpolation)).
  left. reflexivity.
Defined.

(** C10 as stated fails on a one-line context: its only line is non-empty
    and has no leading whitespace, it follows the eight spaces of its
    template line, and the whole prompt is dedented. *)
Lemma one_line_context_is_dedented :
  has_unindented_line (lit "Valve X rated to 150 psi") = true
  /\ keeps_source_indentation
       (build_prompt (lit "Valve X rated to 150 psi")
          (lit "What is the max pressure for valve X?")) = false.
Proof. split; reflexivity. Qed.

(** ** The context block *)

Section ContextBlock.

Context {float : Type}.

Lemma context_chunks_texts (ms : list (ScoredVector float)) :
  context_chunks ms = map match_text ms.
Proof. reflexivity. Qed.

(** C2. The context block is the texts of the matches, in the order of the
    search result, with the separator (two newlines, three hyphens, two
    newlines) between each two neighbours; a match without [text] stands in
    it as an empty text.  So no match is dropped: there is one segment per
    match, and the block is as long as the texts together and one separator
    less than there are matches. *)
Theorem context_block_joins_texts :
  SEP = [NL; NL; 45; 45; 45; NL; NL]
  /\ context_text (float:=float) [] = []
  /\ (forall m : ScoredVector float, context_text [m] = match_text m)
  /\ (forall (m m' : ScoredVector float) ms,
        context_text (m :: m' :: ms) = match_text m ++ SEP ++ context_text (m' :: ms))
  /\ (forall ms : list (ScoredVector float),
        context_chunks ms = map match_text ms
        /\ length (context_chunks ms) = length ms
        /\ length (context_text ms) =
             (list_sum (map (fun m => length (match_text m)) ms)
              + (length ms - 1) * 7)%nat).
Proof.
  split; [reflexivity|]. split; [reflexivity|]. split; [reflexivity|].
  split; [reflexivity|]. intros ms.
  split; [reflexivity|]. split; [apply length_map|].
  unfold context_text. rewrite length_join, context_chunks_texts.
  by rewrite length_map, map_map.
Qed.

(** The example of the specification: of three matches the second has no
    [text]; the block has three segments, the middle one empty. *)
Example context_block_missing_text :
  context_text [Sample.with_text (lit "a") (lit "Valve X rated to 150 psi");
                Sample.without_text (lit "b");
                Sample.with_text (lit "c") (lit "Valve Y rated to 300 psi")]
  = lit "Valve X rated to 150 psi" ++ SEP ++ [] ++ SEP ++ lit "Valve Y rated to 300 psi".
Proof. by vm_compute. Qed.

(** The block of a result is the block of the matches before a match, the
    text of that match and the block of the matches after it, separator
    between them. *)
Lemma context_text_split (before after : list (ScoredVector float))
    (m : ScoredVector float) :
  context_text (before ++ m :: after) =
    (if before is [] then [] else context_text before ++ SEP)
    ++ match_text m
    ++ (if after is [] then [] else SEP ++ context_text after).
Proof.
  unfold context_text. rewrite !context_chunks_texts, map_app, map_cons.
  assert (Py.join SEP (match_text m :: map match_text after) =
            match_text m ++ (if after is [] then [] else
                               SEP ++ Py.join SEP (map match_text after))) as E.
  { destruct after as [|m' after]; [simpl; by rewrite app_nil_r|].
    by rewrite join_cons. }
  destruct before as [|m0 before]; [exact E|].
  rewrite join_app by done. rewrite E. by rewrite <- !app_assoc.
Qed.

(** Two texts of one length in their two orders give two blocks. *)
Lemma context_text_swap (m1 m2 : ScoredVector float) :
  length (match_text m1) = length (match_text m2) ->
  match_text m1 <> match_text m2 ->
  context_text [m1; m2] <> context_text [m2; m1].
Proof.
  intros Hlen Hne E. apply Hne.
  change (match_text m1 ++ SEP ++ match_text m2
          = match_text m2 ++ SEP ++ match_text m1) in E.
  by apply app_inj_1 in E as [E _].
Qed.

(** C9. The block keeps the order of the search result.  The i-th segment
    is the text of the i-th match; in the block the text of every match
    stands after the block of the matches before it and before the block of
    the matches after it, a separator on each side where there is a
    neighbour.  The order matters: two matches whose texts differ and are
    equally long give different blocks in their two orders, and there are
    such matches. *)
Theorem context_block_order (x : float) :
  (forall (ms : list (ScoredVector float)) (i : nat),
      context_chunks ms !! i = match_text <$> ms !! i)
  /\ (forall (before after : list (ScoredVector float)) (m : ScoredVector float),
        context_text (before ++ m :: after) =
          (if before is [] then [] else context_text before ++ SEP)
          ++ match_text m
          ++ (if after is [] then [] else SEP ++ context_text after))
  /\ (forall m1 m2 : ScoredVector float,
        length (match_text m1) = length (match_text m2) ->
        match_text m1 <> match_text m2 ->
        context_text [m1; m2] <> context_text [m2; m1])
  /\ (exists m1 m2 : ScoredVector float,
        match_text m1 <> match_text m2
        /\ context_text [m1; m2] = match_text m1 ++ SEP ++ match_text m2
        /\ context_text [m2; m1] = match_text m2 ++ SEP ++ match_text m1
        /\ context_text [m1; m2] <> context_text [m2; m1]).
Proof.
  split; [|split; [|split]].
  - intros ms i. unfold context_chunks. rewrite list_lookup_fmap. reflexivity.
  - apply context_text_split.
  - apply context_text_swap.
  - exists {| id := lit "a"; score := x; metadata := {[ lit "text" := lit "A" ]} |},
           {| id := lit "b"; score := x; metadata := {[ lit "text" := lit "B" ]} |}.
    split; [intros H; vm_compute in H; discriminate H|].
    split; [reflexivity|]. split; [reflexivity|].
    intros H; vm_compute in H; discriminate H.
Qed.

End ContextBlock.

Lemma context_block_order_witness :
  context_text [Sample.with_text (lit "a") (lit "Valve X rated to 150 psi");
                Sample.with_text (lit "b") (lit "Valve Y rated to 300 psi")]
  <> context_text [Sample.with_text (lit "b") (lit "Valve Y rated to 300 psi");
                   Sample.with_text (lit "a") (lit "Valve X rated to 150 psi")].
Proof.
  apply (proj1 (proj2 (proj2 (context_block_order (float:=Z) 0%Z)))).
  - reflexivity.
  - intros H. vm_compute in H. discriminate H.
Defined.


(** ** [ask]: the calls it makes *)

Section AskFacts.

Context {float W : Type}.
Variable P : providers float W.
Variable cfg : config.

Implicit Types (s : state float W) (q : str).

Lemma ask_embedding_raises q s e w1 :
  embeddings_create P (EMBED_MODEL cfg) q (world s) = (inl e, w1) ->
  ask P cfg q s =
    (inl e, {| world := w1; log := log s ++ [EmbeddingsCreate (EMBED_MODEL cfg) q] |}).
Proof. intros H. run_ask. by rewrite H. Qed.

Lemma ask_embedding_empty q s resp w1 :
  embeddings_create P (EMBED_MODEL cfg) q (world s) = (inr resp, w1) ->
  data resp = [] ->
  ask P cfg q s =
    (inl IndexError,
     {| world := w1; log := log s ++ [EmbeddingsCreate (EMBED_MODEL cfg) q] |}).
Proof. intros H Hd. run_ask. by rewrite H, Hd. Qed.

Lemma ask_search_raises q s resp item rest w1 e w2 :
  embeddings_create P (EMBED_MODEL cfg) q (world s) = (inr resp, w1) ->
  data resp = item :: rest ->
  index_query P (embedding item) (TOP_K cfg) (NAMESPACE cfg) true w1 = (inl e, w2) ->
  ask P cfg q s =
    (inl e,
     {| world := w2;
        log := log s ++ [EmbeddingsCreate (EMBED_MODEL cfg) q;
                         IndexQuery (embedding item) (TOP_K cfg) (NAMESPACE cfg) true] |}).
Proof.
  intros H Hd H2. run_ask. rewrite H, Hd. simpl. rewrite H2.
  by rewrite <- app_assoc.
Qed.

Lemma ask_generates q s resp item rest w1 res w2 :
  embeddings_create P (EMBED_MODEL cfg) q (world s) = (inr resp, w1) ->
  data resp = item :: rest ->
  index_query P (embedding item) (TOP_K cfg) (NAMESPACE cfg) true w1 = (inr res, w2) ->
  let msgs := messages_for (context_text (matches res)) q in
  let out := chat_completions_create P (lit "gpt-4o") msgs 0 w2 in
  ask P cfg q s =
    (answer_of out.1,
     {| world := out.2;
        log := log s ++ [EmbeddingsCreate (EMBED_MODEL cfg) q;
                         IndexQuery (embedding item) (TOP_K cfg) (NAMESPACE cfg) true;
                         ChatCompletionsCreate (lit "gpt-4o") msgs 0] |}).
Proof.
  intros H Hd H2 msgs out. run_ask. rewrite H, Hd. simpl. rewrite H2.
  fold (messages_for (context_text (matches res)) q). fold msgs. subst out.
  simpl.
  destruct (chat_completions_create P (lit "gpt-4o") msgs 0 w2)
    as [[e|chat_resp] w3]; simpl.
  2: destruct (choices chat_resp) as [|choice ?]; simpl.
  3: destruct (content (message choice)); simpl.
  all: by rewrite <- !app_assoc.
Qed.

(** Whatever happens, [ask] adds provider calls to the log and nothing
    else: the embedding call, then the search, then the generation. *)
Lemma ask_log q s :
  exists new,
    log (ask P cfg q s).2 = log s ++ new
    /\ call_kinds new ∈ [[EmbedCall]; [EmbedCall; SearchCall]; [EmbedCall; SearchCall; GenerateCall]]
    /\ Forall (fun e => is_provider_call e = true) new.
Proof.
  destruct (embeddings_create P (EMBED_MODEL cfg) q (world s)) as [[e|resp] w1] eqn:H1.
  { rewrite (ask_embedding_raises _ _ _ _ H1). eexists. split; [reflexivity|].
    split; [set_solver | by repeat constructor]. }
  destruct (data resp) as [|item rest] eqn:Hd.
  { rewrite (ask_embedding_empty _ _ _ _ H1 Hd). eexists. split; [reflexivity|].
    split; [set_solver | by repeat constructor]. }
  destruct (index_query P (embedding item) (TOP_K cfg) (NAMESPACE cfg) true w1)
    as [[e|res] w2] eqn:H2.
  { rewrite (ask_search_raises _ _ _ _ _ _ _ _ H1 Hd H2). eexists.
    split; [reflexivity|]. split; [set_solver | by repeat constructor]. }
  rewrite (ask_generates _ _ _ _ _ _ _ _ H1 Hd H2). eexists.
  split; [reflexivity|]. split; [set_solver | by repeat constructor].
Qed.

(** C1 (amended). [ask] calls the embedding service, then the vector
    search, then the generation service, at most once each and in that
    order, and does nothing else to the outside.  A call that raises ends
    [ask] with that exception before the later calls: after a failed
    embedding call the log has the embedding call alone, after a failed
    search these two calls; an embedding response without data ends it with
    an [IndexError] after the embedding call.  When the embedding call
    returns at least one embedding and the search returns, with matches or
    with none, all three calls are made, once each: the embedding call on
    the question, the search on the first embedding returned, the generation
    on the prompt built from the matches found and the question, each in the
    providers' state that the call before it left. *)
Theorem ask_calls_in_order q s :
  (exists new,
      log (ask P cfg q s).2 = log s ++ new
      /\ call_kinds new ∈ [[EmbedCall]; [EmbedCall; SearchCall];
                            [EmbedCall; SearchCall; GenerateCall]]
      /\ Forall (fun e => is_provider_call e = true) new)
  /\ (forall e w1,
        embeddings_create P (EMBED_MODEL cfg) q (world s) = (inl e, w1) ->
        ask P cfg q s =
          (inl e,
           {| world := w1; log := log s ++ [EmbeddingsCreate (EMBED_MODEL cfg) q] |}))
  /\ (forall resp w1,
        embeddings_create P (EMBED_MODEL cfg) q (world s) = (inr resp, w1) ->
        data resp = [] ->
        ask P cfg q s =
          (inl IndexError,
           {| world := w1; log := log s ++ [EmbeddingsCreate (EMBED_MODEL cfg) q] |}))
  /\ (forall resp item rest w1 e w2,
        embeddings_create P (EMBED_MODEL cfg) q (world s) = (inr resp, w1) ->
        data resp = item :: rest ->
        index_query P (embedding item) (TOP_K cfg) (NAMESPACE cfg) true w1
          = (inl e, w2) ->
        ask P cfg q s =
          (inl e,
           {| world := w2;
              log := log s ++ [EmbeddingsCreate (EMBED_MODEL cfg) q;
                               IndexQuery (embedding item) (TOP_K cfg)
                                 (NAMESPACE cfg) true] |}))
  /\ (forall resp item rest w1 res w2,
        embeddings_create P (EMBED_MODEL cfg) q (world s) = (inr resp, w1) ->
        data resp = item :: rest ->
        index_query P (embedding item) (TOP_K cfg) (NAMESPACE cfg) true w1
          = (inr res, w2) ->
        let msgs := messages_for (context_text (matches res)) q in
        log (ask P cfg q s).2 =
          log s ++ [EmbeddingsCreate (EMBED_MODEL cfg) q;
                    IndexQuery (embedding item) (TOP_K cfg) (NAMESPACE cfg) true;
                    ChatCompletionsCreate (lit "gpt-4o") msgs 0]
        /\ world (ask P cfg q s).2 =
             (chat_completions_create P (lit "gpt-4o") msgs 0 w2).2).
Proof.
  split; [apply ask_log|].
  split; [intros e w1; apply ask_embedding_raises|].
  split; [intros resp w1; apply ask_embedding_empty|].
  split; [intros resp item rest w1 e w2; apply ask_search_raises|].
  intros resp item rest w1 res w2 H1 Hd H2 msgs.
  by rewrite (ask_generates _ _ _ _ _ _ _ _ H1 Hd H2).
Qed.

End AskFacts.

(** The calls of [ask] on sample providers. *)

Lemma ask_calls_in_order_witness :
  log (ask (Sample.steady []) Sample.cfg (lit "What is the max pressure for valve X?")
         (Sample.start tt)).2 =
    [EmbeddingsCreate (VStr (lit "text-embedding-3-large"))
       (lit "What is the max pressure for valve X?");
     IndexQuery [1; 2; 3]%Z 20 (VStr (lit "v1")) true;
     ChatCompletionsCreate (lit "gpt-4o")
       (messages_for [] (lit "What is the max pressure for valve X?")) 0].
Proof.
  apply (proj2 (proj2 (proj2 (proj2
           (ask_calls_in_order (Sample.steady []) Sample.cfg
              (lit "What is the max pressure for valve X?") (Sample.start tt)))))
           Sample.one_embedding {| embedding := [1; 2; 3]%Z |} [] tt
           {| matches := [] |} tt eq_refl eq_refl eq_refl).
Defined.

(** C1 as stated fails when a provider raises: after a failed embedding
    call [ask] makes neither the search nor the generation call. *)
Lemma failed_embedding_ends_ask :
  let run := ask Sample.failing_embedding Sample.cfg
               (lit "What is the max pressure for valve X?") (Sample.start tt) in
  run.1 = inl Sample.connection_error
  /\ call_kinds (log run.2) = [EmbedCall]
  /\ call_kinds (log run.2) <> [EmbedCall; SearchCall; GenerateCall].
Proof. split; [reflexivity|]. split; [reflexivity|]. discriminate. Qed.

(** ** [main]: one run, and the runs of a session *)

Section MainFacts.

Context {float W : Type}.
Variable P : providers float W.
Variable cfg : config.

Implicit Types (s : state float W) (ui : ui_input).

(** A run in which the button was not pressed, or the question is blank. *)
Lemma main_idle ui s :
  ui_pressed ui && Py.truthy (Py.strip (ui_question ui)) = false ->
  main P cfg ui s =
    (inr tt, {| world := world s; log := log s ++ page_header ++ debug_panel cfg |}).
Proof.
  intros H. unfold main, mbind, M_bind, bind, emit, mret, M_ret, ret. run_main.
  rewrite H. run_main. by rewrite <- !app_assoc.
Qed.

(** A run that calls [ask]: whatever [ask] does, its outcome is shown and
    the run goes on to the debug panel. *)
Lemma main_asks ui s :
  ui_pressed ui && Py.truthy (Py.strip (ui_question ui)) = true ->
  let s1 := {| world := world s;
               log := log s ++ page_header ++ [StSpinner (lit "Thinking...")] |} in
  let out := ask P cfg (ui_question ui) s1 in
  main P cfg ui s =
    (inr tt, {| world := world out.2;
                log := log out.2 ++ shown out.1 ++ debug_panel cfg |}).
Proof.
  intros H s1 out.
  unfold main, mbind, M_bind, bind, emit, mret, M_ret, ret, try_except. run_main.
  rewrite H. run_main. rewrite <- !app_assoc.
  change (ask P cfg (ui_question ui) _) with (ask P cfg (ui_question ui) s1).
  subst out.
  destruct (ask P cfg (ui_question ui) s1) as [[e|answer] s2]; run_main;
    by rewrite <- !app_assoc.
Qed.

(** C6. A question that is empty or made of whitespace only is ignored,
    pressed button or not: the run shows the page and the debug panel and
    ends normally, the providers' state is untouched, and nothing it did is
    a provider call or an error message. *)
Theorem blank_question_ignored ui s :
  Forall (fun c => Py.isspace c = true) (ui_question ui) ->
  main P cfg ui s =
    (inr tt, {| world := world s; log := log s ++ page_header ++ debug_panel cfg |})
  /\ Forall (fun e : event float => is_provider_call e = false /\ is_st_error e = false)
       (page_header ++ debug_panel cfg).
Proof.
  intros H. split.
  - apply main_idle. apply strip_nil_iff in H. rewrite H. apply andb_false_r.
  - by repeat constructor.
Qed.

(** A provider call that raises makes [ask] raise the same exception, after
    provider calls only. *)
Lemma ask_raises q s e :
  provider_raises P cfg q (world s) e ->
  exists calls,
    (ask P cfg q s).1 = inl e
    /\ log (ask P cfg q s).2 = log s ++ calls
    /\ Forall (fun ev => is_provider_call ev = true) calls.
Proof.
  intros [w1 H1|resp w1 item rest w2 H1 Hd H2|resp w1 item rest res w2 w3 H1 Hd H2 H3].
  - rewrite (ask_embedding_raises _ _ _ _ _ _ H1). eexists.
    split; [reflexivity|]. split; [reflexivity | by repeat constructor].
  - rewrite (ask_search_raises _ _ _ _ _ _ _ _ _ _ H1 Hd H2). eexists.
    split; [reflexivity|]. split; [reflexivity | by repeat constructor].
  - rewrite (ask_generates _ _ _ _ _ _ _ _ _ _ H1 Hd H2). cbv zeta. rewrite H3.
    eexists. split; [reflexivity|]. split; [reflexivity | by repeat constructor].
Qed.

(** Every run of [main] ends normally and starts with one page
    configuration. *)
Lemma main_log ui s :
  exists rest,
    (main P cfg ui s).1 = inr tt
    /\ log (main P cfg ui s).2 = log s ++ StSetPageConfig :: rest
    /\ Forall (fun e => is_run_start e = false) rest.
Proof.
  destruct (ui_pressed ui && Py.truthy (Py.strip (ui_question ui))) eqn:H.
  - rewrite (main_asks _ _ H). cbv zeta.
    destruct (ask_log P cfg (ui_question ui)
                {| world := world s;
                   log := log s ++ page_header ++ [StSpinner (lit "Thinking...")] |})
      as (new & Hlog & _ & Hcalls).
    destruct (ask P cfg (ui_question ui) _) as [r s2]. simpl in *. rewrite Hlog.
    exists (tail page_header ++ [StSpinner (lit "Thinking...")] ++ new
            ++ shown r ++ debug_panel cfg).
    split; [done|]. split; [by rewrite <- !app_assoc|].
    repeat (apply Forall_app; split); try by repeat constructor.
    + eapply Forall_impl; [exact Hcalls|]. by intros [].
    + destruct r; by repeat constructor.
  - rewrite (main_idle _ _ H). exists (tail page_header ++ debug_panel cfg).
    split; [done|]. split; [done|]. by repeat constructor.
Qed.

(** A session runs [main] once for each interaction, none left out. *)
Lemma session_runs (uis : list ui_input) s :
  (session P cfg uis s).1 = inr tt
  /\ exists new,
       log (session P cfg uis s).2 = log s ++ new
       /\ length (List.filter is_run_start new) = length uis.
Proof.
  revert s. induction uis as [|ui uis IH]; intros s.
  - split; [done|]. exists []. by rewrite app_nil_r.
  - destruct (main_log ui s) as (rest & Hr & Hlog & Hrest).
    cbn [session]. unfold mbind, M_bind, bind.
    destruct (main P cfg ui s) as [[e|[]] s1]; [discriminate|]. simpl in Hlog.
    destruct (IH s1) as (Hok & new & Hnew & Hlen).
    split; [done|]. exists (StSetPageConfig :: rest ++ new).
    split.
    + rewrite Hnew, Hlog. by rewrite <- app_assoc.
    + cbn [List.filter is_run_start length]. f_equal.
      rewrite List.filter_app, length_app, Hlen.
      assert (List.filter is_run_start rest = []) as ->; [|done].
      clear -Hrest. induction Hrest as [|x l Hx _ IHl]; [done|].
      simpl. by rewrite Hx.
Qed.

(** C7. No exception leaves [main]: the run ends normally in every case.
    When the button is pressed on a question that is not blank and one of
    the three provider calls raises, the run shows, after the calls made so
    far, one error message with the text of the exception, and goes on to
    the debug panel.  And a session runs [main] for every one of its
    interactions, whatever went wrong in the runs before. *)
Theorem provider_errors_are_shown :
  (forall ui s, (main P cfg ui s).1 = inr tt)
  /\ (forall ui s e,
        ui_pressed ui = true ->
        Py.strip (ui_question ui) <> [] ->
        provider_raises P cfg (ui_question ui) (world s) e ->
        exists calls,
          log (main P cfg ui s).2 =
            log s ++ page_header ++ [StSpinner (lit "Thinking...")] ++ calls
            ++ [StError (ERROR_PREFIX ++ exn_str e)] ++ debug_panel cfg
          /\ Forall (fun ev => is_provider_call ev = true) calls)
  /\ (forall uis s,
        (session P cfg uis s).1 = inr tt
        /\ exists new,
             log (session P cfg uis s).2 = log s ++ new
             /\ length (List.filter is_run_start new) = length uis).
Proof.
  split; [|split].
  - intros ui s. by destruct (main_log ui s) as (? & ? & _).
  - intros ui s e Hp Hq Hraise.
    assert (ui_pressed ui && Py.truthy (Py.strip (ui_question ui)) = true) as H.
    { rewrite Hp. by destruct (Py.strip (ui_question ui)). }
    rewrite (main_asks _ _ H). cbv zeta.
    destruct (ask_raises (ui_question ui)
                {| world := world s;
                   log := log s ++ page_header ++ [StSpinner (lit "Thinking...")] |}
                e Hraise) as (calls & Hr & Hlog & Hcalls).
    exists calls. split; [|done].
    destruct (ask P cfg (ui_question ui) _) as [r s2]. simpl in *. subst r.
    rewrite Hlog. by rewrite <- !app_assoc.
  - apply session_runs.
Qed.

End MainFacts.

(** Runs of [main] on sample providers. *)

Lemma blank_question_ignored_witness :
  Forall (fun c => Py.isspace c = true) [SPACE; NL; TAB; 160]
  /\ main (Sample.steady []) Sample.cfg
       {| ui_question := [SPACE; NL; TAB; 160]; ui_pressed := true |}
       (Sample.start tt) =
     (inr tt, {| world := tt; log := [] ++ page_header ++ debug_panel Sample.cfg |}).
Proof.
  assert (Forall (fun c => Py.isspace c = true) [SPACE; NL; TAB; 160]) as H
    by (repeat constructor).
  split; [exact H|].
  exact (proj1 (blank_question_ignored (Sample.steady []) Sample.cfg
                  {| ui_question := [SPACE; NL; TAB; 160]; ui_pressed := true |}
                  (Sample.start tt) H)).
Defined.

Lemma provider_errors_are_shown_witness :
  exists calls,
    log (main Sample.failing_embedding Sample.cfg
           {| ui_question := lit "What is the max pressure for valve X?";
              ui_pressed := true |}
           (Sample.start tt)).2 =
      [] ++ page_header ++ [StSpinner (lit "Thinking...")] ++ calls
      ++ [StError (ERROR_PREFIX ++ lit "Connection error.")]
      ++ debug_panel Sample.cfg
    /\ Forall (fun ev => is_provider_call ev = true) calls.
Proof.
  apply (proj1 (proj2 (provider_errors_are_shown Sample.failing_embedding Sample.cfg))
           {| ui_question := lit "What is the max pressure for valve X?";
              ui_pressed := true |}
           (Sample.start tt) Sample.connection_error).
  - reflexivity.
  - vm_compute. discriminate.
  - apply (embedding_raises _ _ _ _ _ tt). reflexivity.
Defined.

(** After a question that met a connection error the next one is answered:
    the first run shows the error, the second the answer. *)
Example session_recovers :
  let run := session Sample.flaky Sample.cfg
               [{| ui_question := lit "Max pressure of valve X?"; ui_pressed := true |};
                {| ui_question := lit "And of valve Y?"; ui_pressed := true |}]
               (Sample.start 0%nat) in
  run.1 = inr tt
  /\ List.filter (fun e => match e with StError _ | StWrite _ => true | _ => false end)
       (log run.2) =
     [StError (ERROR_PREFIX ++ lit "Connection error."); StWrite (lit "I don't know.")].
Proof. by vm_compute. Qed.

(** ** The question in the prompt *)

(** C3 at a question whose second line is indented.  The embedding call
    receives the question as it is; the prompt of the generation call does
    not hold it: [dedent] runs on the filled template, finds a margin of two
    spaces and takes them from the second line of the question as well. *)
Theorem question_indentation_lost :
  let q := lit "Max pressure?
  for valve X" in
  let run := ask (Sample.steady []) Sample.cfg q (Sample.start tt) in
  exists prompt,
    log run.2 =
      [EmbeddingsCreate (VStr (lit "text-embedding-3-large")) q;
       IndexQuery [1; 2; 3]%Z 20 (VStr (lit "v1")) true;
       ChatCompletionsCreate (lit "gpt-4o")
         [{| mp_role := lit "user"; mp_content := prompt |}] 0]
    /\ Py.contains prompt q = false
    /\ Py.contains prompt (lit "Max pressure?
for valve X") = true.
Proof.
  cbv zeta. exists (build_prompt [] (lit "Max pressure?
  for valve X")).
  split; [|split]; by vm_compute.
Qed.

(** ** Configuration and start-up *)

Section ConfigFacts.

Context {float : Type}.
Variable secrets : gmap str pyval.
Variable environ : gmap str str.

(** A nested pair of [get] calls is the fallback chain. *)
Lemma secrets_get_getenv (key : str) (default : pyval) :
  secrets_get secrets key (getenv environ key default) =
    resolve secrets environ key default.
Proof.
  unfold secrets_get, getenv, resolve, fallback.
  destruct (secrets !! key); [done|]. by destruct (environ !! key).
Qed.

(** C4 (amended). Every field is the first of: the secret of that name,
    the environment variable of that name, the default; the API keys have
    [None] for a default, the others the named values, TOP_K the integer 20.
    The value found for TOP_K goes through [int] and nothing else: the
    configuration has what [int] returns, which is not checked to be
    positive, so that an integer secret of any sign, zero included, is used
    as it is. *)
Theorem config_fallback_chain :
  load_config secrets environ =
    (fun k =>
       {| PINECONE_API_KEY := resolve secrets environ (lit "PINECONE_API_KEY") VNone;
          OPENAI_API_KEY := resolve secrets environ (lit "OPENAI_API_KEY") VNone;
          INDEX_NAME := resolve secrets environ (lit "INDEX_NAME") (VStr (lit "aquestia"));
          NAMESPACE := resolve secrets environ (lit "NAMESPACE") (VStr (lit "v1"));
          EMBED_MODEL :=
            resolve secrets environ (lit "EMBED_MODEL")
              (VStr (lit "text-embedding-3-large"));
          TOP_K := k |})
    <$> PyInt.int (resolve secrets environ (lit "TOP_K") (VInt 20))
  /\ (forall n : Z,
        TOP_K <$> load_config (<[lit "TOP_K" := VInt n]> secrets) environ = Some n)
  /\ TOP_K <$> load_config (delete (lit "TOP_K") secrets) (delete (lit "TOP_K") environ)
       = Some 20%Z.
Proof.
  assert (forall sec env,
            load_config sec env =
              (fun k =>
                 {| PINECONE_API_KEY := resolve sec env (lit "PINECONE_API_KEY") VNone;
                    OPENAI_API_KEY := resolve sec env (lit "OPENAI_API_KEY") VNone;
                    INDEX_NAME := resolve sec env (lit "INDEX_NAME") (VStr (lit "aquestia"));
                    NAMESPACE := resolve sec env (lit "NAMESPACE") (VStr (lit "v1"));
                    EMBED_MODEL :=
                      resolve sec env (lit "EMBED_MODEL")
                        (VStr (lit "text-embedding-3-large"));
                    TOP_K := k |})
              <$> PyInt.int (resolve sec env (lit "TOP_K") (VInt 20))) as E.
  { intros sec env.
    unfold load_config, top_k_source, pinecone_api_key, openai_api_key, index_name,
      namespace, embed_model, secrets_get, getenv, resolve, fallback.
    repeat match goal with
           | |- context [?m !! ?k] => destruct (m !! k)
           end;
      by destruct (PyInt.int _). }
  split; [apply E|]. split.
  - intros n. rewrite E. unfold resolve. rewrite lookup_insert_eq. reflexivity.
  - rewrite E. unfold resolve. rewrite !lookup_delete_eq. reflexivity.
Qed.

(** The guard of line 18 with a key that is [None], empty or otherwise
    false. *)
Lemma startup_guard :
  truthy (pinecone_api_key secrets environ) = false
  \/ truthy (openai_api_key secrets environ) = false ->
  startup (float:=float) secrets environ =
    match load_config secrets environ with
    | Some _ => ([StError MISSING_KEYS; StStop], Stopped)
    | None => ([], IntRaised)
    end.
Proof.
  intros H. unfold startup, load_config.
  destruct (PyInt.int _); [|done]. cbn [PINECONE_API_KEY OPENAI_API_KEY].
  destruct H as [-> | ->]; [done|]. by rewrite orb_true_r.
Qed.

(** C5 (amended). When a key is absent after resolution the start-up
    constructs no client and makes no provider call, whatever else is
    configured; and provided [int] has accepted the TOP_K value on line 16,
    all it does is show the configuration error and stop the script. *)
Theorem missing_key_halts_startup :
  pinecone_api_key secrets environ = VNone
  \/ openai_api_key secrets environ = VNone ->
  Forall (fun e => is_client_construction e = false /\ is_provider_call e = false)
    (startup (float:=float) secrets environ).1
  /\ forall k : Z,
       PyInt.int (top_k_source secrets environ) = Some k ->
       startup (float:=float) secrets environ =
         ([StError MISSING_KEYS; StStop], Stopped).
Proof.
  intros H.
  assert (startup (float:=float) secrets environ =
            match load_config secrets environ with
            | Some _ => ([StError MISSING_KEYS; StStop], Stopped)
            | None => ([], IntRaised)
            end) as E.
  { apply startup_guard. destruct H as [-> | ->]; [by left | by right]. }
  split.
  - rewrite E. destruct (load_config secrets environ); by repeat constructor.
  - intros k Hk. rewrite E. unfold load_config. by rewrite Hk.
Qed.

End ConfigFacts.

(** Start-up on sample sources. *)

Lemma missing_key_halts_startup_witness :
  openai_api_key {[ lit "PINECONE_API_KEY" := VStr (lit "pc-key") ]} ∅ = VNone
  /\ startup (float:=Z) {[ lit "PINECONE_API_KEY" := VStr (lit "pc-key") ]} ∅ =
       ([StError MISSING_KEYS; StStop], Stopped).
Proof.
  split; [reflexivity|].
  assert (openai_api_key {[ lit "PINECONE_API_KEY" := VStr (lit "pc-key") ]} ∅
          = VNone) as H by reflexivity.
  apply (proj2 (missing_key_halts_startup (float:=Z)
                  {[ lit "PINECONE_API_KEY" := VStr (lit "pc-key") ]} ∅
                  (or_intror H)) 20%Z).
  reflexivity.
Defined.

(** C5 as stated fails when TOP_K is not a number: with both keys absent
    and TOP_K=five in the environment [int] raises on line 16, the script
    ends there and the configuration error is never shown. *)
Lemma missing_key_with_bad_top_k :
  pinecone_api_key ∅ {[ lit "TOP_K" := lit "five" ]} = VNone
  /\ openai_api_key ∅ {[ lit "TOP_K" := lit "five" ]} = VNone
  /\ startup (float:=Z) ∅ {[ lit "TOP_K" := lit "five" ]} = ([], IntRaised)
  /\ Forall (fun e => is_st_error e = false)
       (startup (float:=Z) ∅ {[ lit "TOP_K" := lit "five" ]}).1.
Proof. split; [|split; [|split]]; by vm_compute. Qed.

(** With both keys the clients are constructed, in the order of lines 25
    to 27. *)
Example startup_ready :
  startup (float:=Z) {[ lit "PINECONE_API_KEY" := VStr (lit "pc-key") ]}
    {[ lit "OPENAI_API_KEY" := lit "sk-key" ]} =
    ([NewPinecone (VStr (lit "pc-key")); PineconeIndex (VStr (lit "aquestia"));
      NewOpenAI (VStr (lit "sk-key"))], Ready Sample.cfg).
Proof. by vm_compute. Qed.

(** C4 as stated fails on TOP_K=-5 in the environment: [int] makes it the
    integer -5, which is not positive, and the start-up goes on with it. *)
Lemma top_k_not_positive :
  TOP_K <$> load_config ∅ {[ lit "TOP_K" := lit "-5" ]} = Some (-5)%Z
  /\ ~ (0 < -5)%Z.
Proof. split; [by vm_compute | lia]. Qed.

(** * Further properties of the pipeline *)

(** ** Substrings *)

Section ContainsFacts.

Import Py.

Lemma contains_app_l (a s sub : str) :
  contains s sub = true -> contains (a ++ s) sub = true.
Proof.
  intros H. induction a as [|x a IH]; [done|].
  cbn [app contains]. rewrite IH. apply orb_true_r.
Qed.

(** A string holds every string that stands somewhere inside it. *)
Lemma contains_infix (a sub b : str) : contains (a ++ sub ++ b) sub = true.
Proof.
  apply contains_app_l.
  destruct (sub ++ b) eqn:E; cbn [contains]; rewrite <- E;
    by rewrite startswith_app.
Qed.

(** A joined string holds each of its parts. *)
Lemma join_holds_part (sep l : str) (ls : list str) :
  l ∈ ls -> exists a b, join sep ls = a ++ l ++ b.
Proof.
  induction 1 as [l ls|l l' ls Hin IH].
  - destruct ls as [|l' ls].
    + exists [], []. simpl. by rewrite app_nil_r.
    + exists [], (sep ++ join sep (l' :: ls)). by rewrite join_cons.
  - destruct IH as (a & b & E). destruct ls as [|l'' ls]; [by inversion Hin|].
    exists (l' ++ sep ++ a), b. rewrite join_cons by done.
    rewrite E. by rewrite <- !app_assoc.
Qed.

End ContainsFacts.

(** ** The lines of the prompt *)

Section PromptLines.

Import Textwrap.

Lemma strip_margin_no_newline (m l : str) :
  Forall (fun x => x <> NL) l -> Forall (fun x => x <> NL) (strip_margin m l).
Proof.
  intros H. unfold strip_margin. destruct (Py.startswith l m); [|done].
  by apply Forall_drop.
Qed.

(** [dedent] works line by line: it neither joins nor splits lines. *)
Lemma dedent_split (text : str) :
  let ls := map blank_line (Py.split NL text) in
  Py.split NL (dedent text) = map (strip_margin (default [] (margin_of ls))) ls.
Proof.
  cbv zeta. rewrite dedent_lines. cbv zeta. apply split_join.
  - intros E. do 2 apply map_eq_nil in E. by apply split_not_nil in E.
  - apply Forall_map, Forall_map. eapply Forall_impl; [apply split_pieces|].
    intros l Hl. by apply strip_margin_no_newline, blank_line_no_newline.
Qed.

(** Whatever the context and the question are, the prompt has the lines of
    the template in their order, all behind one and the same run of at most
    eight spaces, with as many lines between them as the context and the
    question have: the dedentation drops no line and merges none. *)
Theorem prompt_lines (c q : str) :
  exists (k : nat) (clines qlines : list str),
    (k <= 8)%nat
    /\ length clines = length (Py.split NL c)
    /\ length qlines = length (Py.split NL q)
    /\ let ind := replicate k SPACE in
       Py.split NL (build_prompt c q) =
         [[]; ind ++ LINE_ROLE; ind ++ LINE_ONLY; ind ++ LINE_TRY; [];
          ind ++ HEADING_CONTEXT]
         ++ clines ++ [[]; ind ++ HEADING_QUESTION]
         ++ qlines ++ [[]; ind ++ HEADING_ANSWER; []].
Proof.
  destruct (template_margin c q) as (j & Hj & Hm).
  set (f := fun l => strip_margin (replicate j SPACE) (blank_line l)).
  exists (8 - j)%nat, (map f (glue INDENT8 (Py.split NL c))),
         (map f (glue INDENT8 (Py.split NL q))).
  split; [lia|].
  assert (forall ls, length (glue INDENT8 ls) = length ls \/ ls = []) as Hglue
    by (intros [|? ?]; auto).
  split; [|split].
  1,2: rewrite length_map;
       match goal with
       | |- length (glue _ ?ls) = _ =>
           destruct (Hglue ls) as [->|E]; [done | by apply split_not_nil in E]
       end.
  cbv zeta. unfold build_prompt. rewrite dedent_split. cbv zeta. rewrite Hm.
  rewrite map_map. fold f. rewrite template_lines, !map_app.
  unfold head_lines, mid_lines, tail_lines. cbn [map].
  assert (forall l, f l = strip_margin (replicate j SPACE) (blank_line l)) as Hf
    by reflexivity.
  rewrite !Hf.
  change (blank_line []) with (@nil N).
  change (blank_line INDENT4) with (@nil N).
  rewrite !strip_margin_empty.
  rewrite !(strip_margin_text j) by (done || reflexivity).
  reflexivity.
Qed.

End PromptLines.

Section Verbatim.

Import Textwrap.

Lemma after_leading_indent (n : nat) (l : str) :
  after_leading (replicate n SPACE ++ l) = after_leading l.
Proof. induction n as [|n IH]; [done|]. simpl. exact IH. Qed.

(** A line of the filled template that has text after its eight spaces
    keeps that text. *)
Lemma strip_margin_indented (j : nat) (l : str) :
  (j <= 8)%nat -> after_leading l <> [] ->
  strip_margin (replicate j SPACE) (blank_line (INDENT8 ++ l)) =
    replicate (8 - j) SPACE ++ l.
Proof.
  intros Hj Hl.
  assert (blank_line (INDENT8 ++ l) = INDENT8 ++ l) as ->.
  { unfold blank_line, INDENT8. rewrite after_leading_indent.
    by destruct (after_leading l). }
  unfold INDENT8. replace 8%nat with (j + (8 - j))%nat at 1 by lia.
  rewrite replicate_add, <- app_assoc. apply strip_margin_app.
Qed.

(** A question of one line that is not blank stands in the prompt as it
    is, whatever the context: the dedentation only takes from the eight
    spaces in front of it. *)
Theorem one_line_question_verbatim (c q : str) :
  Forall (fun x => x <> NL) q ->
  after_leading q <> [] ->
  Py.contains (build_prompt c q) q = true.
Proof.
  intros Hline Htext.
  destruct (template_margin c q) as (j & Hj & Hm).
  assert (replicate (8 - j) SPACE ++ q ∈ Py.split NL (build_prompt c q)) as Hin.
  { unfold build_prompt. rewrite dedent_split. cbv zeta. rewrite Hm.
    rewrite map_map, template_lines, (split_single NL q Hline). cbn [glue].
    rewrite <- (strip_margin_indented j q Hj Htext).
    rewrite !map_app. do 3 (apply elem_of_app; right).
    apply elem_of_app. left. cbn [map]. left. }
  destruct (join_holds_part [NL] _ _ Hin) as (a & b & E).
  rewrite join_split in E. rewrite E.
  replace (a ++ (replicate (8 - j) SPACE ++ q) ++ b)
    with ((a ++ replicate (8 - j) SPACE) ++ q ++ b) by (by rewrite <- !app_assoc).
  apply contains_infix.
Qed.

End Verbatim.

Lemma one_line_question_verbatim_witness :
  Py.contains
    (build_prompt (lit "Valve X rated to 150 psi")
       (lit "  What is the max pressure for valve X? "))
    (lit "  What is the max pressure for valve X? ") = true.
Proof.
  apply one_line_question_verbatim.
  - vm_compute. repeat constructor; discriminate.
  - vm_compute. discriminate.
Defined.

(** ** More on the context block *)

Section ContextFacts.

Context {float : Type}.

Implicit Types (m : ScoredVector float) (ms : list (ScoredVector float)).

(** The text of every match of the search result stands in the context
    block as it is. *)
Theorem context_holds_every_text m ms :
  m ∈ ms -> Py.contains (context_text ms) (match_text m) = true.
Proof.
  intros Hin.
  assert (match_text m ∈ context_chunks ms) as H
    by (unfold context_chunks; by apply list_elem_of_fmap_2).
  destruct (join_holds_part SEP _ _ H) as (a & b & E).
  unfold context_text. rewrite E. apply contains_infix.
Qed.

(** The separator puts a line of three hyphens after the first line of a
    block of two matches or more. *)
Lemma two_matches_unindented_line m m' ms :
  has_unindented_later_line (context_text (m :: m' :: ms)) = true.
Proof.
  unfold has_unindented_later_line.
  change (context_text (m :: m' :: ms))
    with (match_text m ++ NL :: [] ++ NL :: lit "---" ++ NL :: [] ++ NL ::
          context_text (m' :: ms)).
  rewrite !split_app_sep.
  pose proof (split_not_nil NL (match_text m)) as Hne.
  destruct (Py.split NL (match_text m)) as [|l ls]; [done|].
  cbn [app tail]. rewrite existsb_app. apply orb_true_iff. right.
  reflexivity.
Qed.

(** With two matches or more the dedentation never takes effect: the
    prompt keeps the eight spaces of the source before every line of the
    template, whatever the texts and the question are. *)
Theorem two_matches_keep_indentation m m' ms (q : str) :
  keeps_source_indentation (build_prompt (context_text (m :: m' :: ms)) q) = true
  /\ Py.split NL (build_prompt (context_text (m :: m' :: ms)) q) =
       map Textwrap.blank_line
         (Py.split NL (template (context_text (m :: m' :: ms)) q)).
Proof.
  pose proof (unindented_later_line_lines _ q
                (or_introl (two_matches_unindented_line m m' ms))) as E.
  split; [|exact E].
  unfold keeps_source_indentation. rewrite E.
  apply forallb_forall. intros l Hl. apply existsb_elem.
  apply fixed_line_in_template. by apply list_elem_of_In.
Qed.

End ContextFacts.

Lemma context_holds_every_text_witness :
  Py.contains
    (context_text [Sample.with_text (lit "a") (lit "Valve X rated to 150 psi");
                   Sample.with_text (lit "b") (lit "Valve Y rated to 300 psi")])
    (lit "Valve Y rated to 300 psi") = true.
Proof.
  apply (context_holds_every_text
           (Sample.with_text (lit "b") (lit "Valve Y rated to 300 psi"))).
  right. left.
Defined.

(** ** [str.strip] and the answer *)

Section StripFacts.

Import Py.

Variable p : N -> bool.

Lemma lstrip_by_idem (s : str) : lstrip_by p (lstrip_by p s) = lstrip_by p s.
Proof.
  induction s as [|c s IH]; [done|]. simpl.
  destruct (p c) eqn:E; [done|]. simpl. by rewrite E.
Qed.

(** Stripping on the left leaves a suffix. *)
Lemma lstrip_by_suffix (s : str) : exists a, s = a ++ lstrip_by p s.
Proof.
  induction s as [|c s [a IH]]; [by exists []|]. simpl.
  destruct (p c); [|by exists []]. exists (c :: a). simpl. by f_equal.
Qed.

(** Stripping on the right leaves a prefix. *)
Lemma rstrip_by_prefix (s : str) : exists b, s = rstrip_by p s ++ b.
Proof.
  unfold rstrip_by. destruct (lstrip_by_suffix (rev s)) as [a E].
  exists (rev a). rewrite <- rev_app_distr, <- E. by rewrite rev_involutive.
Qed.

Lemma lstrip_by_unchanged (s : str) :
  match s with c :: _ => p c = false | [] => True end -> lstrip_by p s = s.
Proof. destruct s as [|c r]; [done|]. simpl. by intros ->. Qed.

Lemma strip_by_head (s : str) (c : N) :
  head (strip_by p s) = Some c -> p c = false.
Proof.
  unfold strip_by. destruct (rstrip_by_prefix (lstrip_by p s)) as [b E].
  destruct (rstrip_by p (lstrip_by p s)) as [|x r]; [discriminate|].
  intros [= ->]. simpl in E. by apply lstrip_by_head in E.
Qed.

Lemma strip_by_last (s : str) (c : N) :
  last (strip_by p s) = Some c -> p c = false.
Proof.
  unfold strip_by, rstrip_by.
  destruct (lstrip_by p (rev (lstrip_by p s))) as [|x r] eqn:E; [discriminate|].
  simpl. rewrite last_snoc. intros [= ->]. by apply lstrip_by_head in E.
Qed.

(** Stripping twice is stripping once. *)
Lemma strip_by_idem (s : str) : strip_by p (strip_by p s) = strip_by p s.
Proof.
  assert (lstrip_by p (strip_by p s) = strip_by p s) as E.
  { apply lstrip_by_unchanged.
    destruct (strip_by p s) as [|c r] eqn:Hs; [done|].
    apply (strip_by_head s). by rewrite Hs. }
  unfold strip_by at 1. rewrite E. unfold strip_by, rstrip_by.
  by rewrite rev_involutive, lstrip_by_idem.
Qed.

End StripFacts.

Section AnswerFacts.

Context {float W : Type}.
Variable P : providers float W.
Variable cfg : config.

Implicit Types (s : state float W) (q : str).

(** When [ask] returns, all three calls returned and the answer is the
    stripped content of the first choice. *)
Lemma ask_returns_inv q s a :
  (ask P cfg q s).1 = inr a ->
  exists resp item rest w1 res w2 chat_resp w3 choice others c,
    embeddings_create P (EMBED_MODEL cfg) q (world s) = (inr resp, w1)
    /\ data resp = item :: rest
    /\ index_query P (embedding item) (TOP_K cfg) (NAMESPACE cfg) true w1 = (inr res, w2)
    /\ chat_completions_create P (lit "gpt-4o")
         (messages_for (context_text (matches res)) q) 0 w2 = (inr chat_resp, w3)
    /\ choices chat_resp = choice :: others
    /\ content (message choice) = Some c
    /\ a = Py.strip c.
Proof.
  destruct (embeddings_create P (EMBED_MODEL cfg) q (world s)) as [[e|resp] w1] eqn:H1.
  { by rewrite (ask_embedding_raises _ _ _ _ _ _ H1). }
  destruct (data resp) as [|item rest] eqn:Hd.
  { by rewrite (ask_embedding_empty _ _ _ _ _ _ H1 Hd). }
  destruct (index_query P (embedding item) (TOP_K cfg) (NAMESPACE cfg) true w1)
    as [[e|res] w2] eqn:H2.
  { by rewrite (ask_search_raises _ _ _ _ _ _ _ _ _ _ H1 Hd H2). }
  rewrite (ask_generates _ _ _ _ _ _ _ _ _ _ H1 Hd H2). cbv zeta.
  destruct (chat_completions_create P _ _ 0 w2) as [[e|chat_resp] w3] eqn:H3;
    [done|]. cbn [fst answer_of].
  destruct (choices chat_resp) as [|choice others] eqn:Hc; [done|].
  destruct (content (message choice)) as [c|] eqn:Hm; [|done].
  intros [= <-]. by repeat eexists.
Qed.

(** An answer that [ask] returns neither starts nor ends with whitespace,
    and stripping it again changes nothing. *)
Theorem answer_is_stripped q s a :
  (ask P cfg q s).1 = inr a ->
  Py.strip a = a
  /\ forall c, head a = Some c \/ last a = Some c -> Py.isspace c = false.
Proof.
  intros H. apply ask_returns_inv in H
    as (? & ? & ? & ? & ? & ? & ? & ? & ? & ? & c & _ & _ & _ & _ & _ & _ & ->).
  split; [apply strip_by_idem|].
  intros ch [Hx|Hx]; [by apply strip_by_head in Hx | by apply strip_by_last in Hx].
Qed.

(** A chat response without a choice, or whose first choice has no content,
    makes [ask] raise after all three calls: an [IndexError] in the first
    case, an [AttributeError] in the second. *)
Theorem malformed_chat_response_raises q s resp item rest w1 res w2 chat_resp w3 :
  embeddings_create P (EMBED_MODEL cfg) q (world s) = (inr resp, w1) ->
  data resp = item :: rest ->
  index_query P (embedding item) (TOP_K cfg) (NAMESPACE cfg) true w1 = (inr res, w2) ->
  chat_completions_create P (lit "gpt-4o")
    (messages_for (context_text (matches res)) q) 0 w2 = (inr chat_resp, w3) ->
  head (choices chat_resp) ≫= (fun choice => content (message choice)) = None ->
  exists e new,
    (ask P cfg q s).1 = inl e
    /\ e = (if choices chat_resp is [] then IndexError else AttributeError_strip)
    /\ log (ask P cfg q s).2 = log s ++ new
    /\ call_kinds new = [EmbedCall; SearchCall; GenerateCall].
Proof.
  intros H1 Hd H2 H3 Hbad.
  rewrite (ask_generates _ _ _ _ _ _ _ _ _ _ H1 Hd H2). cbv zeta. rewrite H3.
  cbn [fst snd answer_of log].
  destruct (choices chat_resp) as [|choice others]; simpl in Hbad.
  - by repeat eexists.
  - rewrite Hbad. by repeat eexists.
Qed.

End AnswerFacts.

Lemma answer_is_stripped_witness :
  Py.strip (lit "150 psi.") = lit "150 psi."
  /\ forall c, head (lit "150 psi.") = Some c \/ last (lit "150 psi.") = Some c ->
       Py.isspace c = false.
Proof.
  apply (answer_is_stripped (Sample.steady []) Sample.cfg
           (lit "What is the max pressure for valve X?") (Sample.start tt)).
  reflexivity.
Defined.

Lemma malformed_chat_response_raises_witness :
  exists e new,
    (ask Sample.no_choice Sample.cfg (lit "Max pressure?") (Sample.start tt)).1 = inl e
    /\ e = IndexError
    /\ log (ask Sample.no_choice Sample.cfg (lit "Max pressure?") (Sample.start tt)).2
       = [] ++ new
    /\ call_kinds new = [EmbedCall; SearchCall; GenerateCall].
Proof.
  apply (malformed_chat_response_raises Sample.no_choice Sample.cfg
           (lit "Max pressure?") (Sample.start tt)
           Sample.one_embedding {| embedding := [1; 2; 3]%Z |} [] tt
           {| matches := [] |} tt {| choices := [] |} tt);
    reflexivity.
Defined.

(** ** More on [main] and on sessions *)

Section RunFacts.

Context {float W : Type}.
Variable P : providers float W.
Variable cfg : config.

Implicit Types (s : state float W) (ui : ui_input).

Lemma call_kinds_app (a b : list (event float)) :
  call_kinds (a ++ b) = call_kinds a ++ call_kinds b.
Proof. apply omap_app. Qed.

Lemma call_kinds_calls (new : list (event float)) :
  call_kinds new ∈ [[EmbedCall]; [EmbedCall; SearchCall];
                    [EmbedCall; SearchCall; GenerateCall]] ->
  (1 <= length (call_kinds new) <= 3)%nat.
Proof.
  rewrite !elem_of_cons. intros [->|[->|[->|H]]]; simpl; try lia.
  by apply elem_of_nil in H.
Qed.

(** Header, middle part, debug panel: the parts of a run. *)
Lemma main_shape ui s :
  exists mid,
    log (main P cfg ui s).2 = log s ++ page_header ++ mid ++ debug_panel cfg
    /\ (length (call_kinds mid) <= 3)%nat
    /\ (if ui_pressed ui && Py.truthy (Py.strip (ui_question ui))
        then (1 <= length (call_kinds mid))%nat
        else mid = []).
Proof.
  destruct (ui_pressed ui && Py.truthy (Py.strip (ui_question ui))) eqn:H.
  - rewrite (main_asks _ _ _ _ H). cbv zeta.
    destruct (ask_log P cfg (ui_question ui)
                {| world := world s;
                   log := log s ++ page_header ++ [StSpinner (lit "Thinking...")] |})
      as (new & Hlog & Hkinds & _).
    destruct (ask P cfg (ui_question ui) _) as [r s2]. simpl in *.
    exists ([StSpinner (lit "Thinking...")] ++ new ++ shown r).
    assert (call_kinds ([StSpinner (lit "Thinking...")] ++ new ++ shown r)
            = call_kinds new) as ->.
    { rewrite !call_kinds_app. destruct r; simpl; by rewrite app_nil_r. }
    apply call_kinds_calls in Hkinds.
    split; [rewrite Hlog; by rewrite <- !app_assoc|].
    split; lia.
  - rewrite (main_idle _ _ _ _ H). exists []. simpl.
    split; [done|]. split; [lia | done].
Qed.

(** The shape of every run: the page header, then what the question led
    to, then the debug panel.  The middle part is empty unless the button
    was pressed on a question that is not blank; then it holds between one
    and three provider calls. *)
Theorem main_run_shape ui s :
  exists mid,
    log (main P cfg ui s).2 = log s ++ page_header ++ mid ++ debug_panel cfg
    /\ (length (call_kinds mid) <= 3)%nat
    /\ (if ui_pressed ui && Py.truthy (Py.strip (ui_question ui))
        then (1 <= length (call_kinds mid))%nat
        else mid = []).
Proof. apply main_shape. Qed.

(** A run in which [ask] returns shows the answer under its heading and no
    error message, after the three provider calls. *)
Theorem answered_question_is_shown ui s a :
  ui_pressed ui = true ->
  Py.strip (ui_question ui) <> [] ->
  (ask P cfg (ui_question ui)
     {| world := world s;
        log := log s ++ page_header ++ [StSpinner (lit "Thinking...")] |}).1 = inr a ->
  exists calls,
    log (main P cfg ui s).2 =
      log s ++ page_header ++ [StSpinner (lit "Thinking...")] ++ calls
      ++ [StMarkdown (lit "### Answer"); StWrite a] ++ debug_panel cfg
    /\ call_kinds calls = [EmbedCall; SearchCall; GenerateCall]
    /\ Forall (fun e => is_provider_call e = true) calls.
Proof.
  intros Hp Hq Ha.
  assert (ui_pressed ui && Py.truthy (Py.strip (ui_question ui)) = true) as H.
  { rewrite Hp. by destruct (Py.strip (ui_question ui)). }
  rewrite (main_asks _ _ _ _ H). cbv zeta.
  set (s1 := {| world := world s;
                log := log s ++ page_header ++ [StSpinner (lit "Thinking...")] |}) in *.
  pose proof Ha as Hinv.
  apply ask_returns_inv in Hinv
    as (resp & item & rest & w1 & res & w2 & ? & ? & ? & ? & ?
        & H1 & Hd & H2 & _).
  pose proof (ask_generates P cfg _ s1 _ _ _ _ _ _ H1 Hd H2) as E. cbv zeta in E.
  rewrite Ha. rewrite E. cbn [snd log shown].
  exists [EmbeddingsCreate (EMBED_MODEL cfg) (ui_question ui);
          IndexQuery (embedding item) (TOP_K cfg) (NAMESPACE cfg) true;
          ChatCompletionsCreate (lit "gpt-4o")
            (messages_for (context_text (matches res)) (ui_question ui)) 0].
  split; [|split; [done | by repeat constructor]].
  subst s1. cbn [log]. by rewrite <- !app_assoc.
Qed.

(** An embedding response without data ends the run with the message of
    the [IndexError], after the embedding call alone. *)
Theorem empty_embedding_is_shown ui s resp w1 :
  ui_pressed ui = true ->
  Py.strip (ui_question ui) <> [] ->
  embeddings_create P (EMBED_MODEL cfg) (ui_question ui) (world s) = (inr resp, w1) ->
  data resp = [] ->
  main P cfg ui s =
    (inr tt,
     {| world := w1;
        log := log s ++ page_header
               ++ [StSpinner (lit "Thinking...");
                   EmbeddingsCreate (EMBED_MODEL cfg) (ui_question ui);
                   StError (ERROR_PREFIX ++ lit "list index out of range")]
               ++ debug_panel cfg |}).
Proof.
  intros Hp Hq H1 Hd.
  assert (ui_pressed ui && Py.truthy (Py.strip (ui_question ui)) = true) as H.
  { rewrite Hp. by destruct (Py.strip (ui_question ui)). }
  rewrite (main_asks _ _ _ _ H). cbv zeta.
  rewrite (ask_embedding_empty P cfg _
             {| world := world s;
                log := log s ++ page_header ++ [StSpinner (lit "Thinking...")] |}
             _ _ H1 Hd).
  cbn [fst snd world log shown exn_str IndexError]. by rewrite <- !app_assoc.
Qed.

(** A session of n interactions makes at most 3n provider calls. *)
Theorem session_call_bound (uis : list ui_input) s :
  exists new,
    log (session P cfg uis s).2 = log s ++ new
    /\ (length (call_kinds new) <= 3 * length uis)%nat.
Proof.
  revert s. induction uis as [|ui uis IH]; intros s.
  - exists []. split; [by rewrite app_nil_r | simpl; lia].
  - destruct (main_log P cfg ui s) as (_ & Hr & _).
    destruct (main_shape ui s) as (mid & Hlog & Hmid & _).
    cbn [session]. unfold mbind, M_bind, bind.
    destruct (main P cfg ui s) as [[e|[]] s1]; [discriminate|].
    cbn [snd] in Hlog.
    destruct (IH s1) as (new & Hnew & Hlen).
    exists (page_header ++ mid ++ debug_panel cfg ++ new). split.
    + rewrite Hnew, Hlog. by rewrite <- !app_assoc.
    + rewrite !call_kinds_app, !length_app.
      change (length (call_kinds page_header)) with 0%nat.
      change (length (call_kinds (debug_panel cfg))) with 0%nat.
      simpl length. lia.
Qed.

End RunFacts.

Lemma answered_question_is_shown_witness :
  exists calls,
    log (main (Sample.steady []) Sample.cfg
           {| ui_question := lit "Max pressure of valve X?"; ui_pressed := true |}
           (Sample.start tt)).2 =
      [] ++ page_header ++ [StSpinner (lit "Thinking...")] ++ calls
      ++ [StMarkdown (lit "### Answer"); StWrite (lit "150 psi.")]
      ++ debug_panel Sample.cfg
    /\ call_kinds calls = [EmbedCall; SearchCall; GenerateCall]
    /\ Forall (fun e => is_provider_call e = true) calls.
Proof.
  apply (answered_question_is_shown (Sample.steady []) Sample.cfg
           {| ui_question := lit "Max pressure of valve X?"; ui_pressed := true |}
           (Sample.start tt) (lit "150 psi.")).
  - reflexivity.
  - vm_compute. discriminate.
  - reflexivity.
Defined.

Lemma empty_embedding_is_shown_witness :
  main Sample.no_embedding Sample.cfg
    {| ui_question := lit "Max pressure of valve X?"; ui_pressed := true |}
    (Sample.start tt) =
    (inr tt,
     {| world := tt;
        log := [] ++ page_header
               ++ [StSpinner (lit "Thinking...");
                   EmbeddingsCreate (VStr (lit "text-embedding-3-large"))
                     (lit "Max pressure of valve X?");
                   StError (ERROR_PREFIX ++ lit "list index out of range")]
               ++ debug_panel Sample.cfg |}).
Proof.
  apply (empty_embedding_is_shown Sample.no_embedding Sample.cfg
           {| ui_question := lit "Max pressure of valve X?"; ui_pressed := true |}
           (Sample.start tt) {| data := [] |} tt).
  - reflexivity.
  - vm_compute. discriminate.
  - reflexivity.
  - reflexivity.
Defined.

(** ** More on the start-up *)

Section StartupFacts.

Context {float : Type}.
Variable secrets : gmap str pyval.
Variable environ : gmap str str.

(** A TOP_K made of whitespace, or empty, stops the start-up at line 16:
    no message is shown, no key is looked at and no client is constructed. *)
Theorem blank_top_k_aborts_startup (v : str) :
  top_k_source secrets environ = VStr v ->
  Forall (fun c => PyInt.skipped c = true) v ->
  load_config secrets environ = None
  /\ startup (float:=float) secrets environ = ([], IntRaised).
Proof.
  intros Hsrc Hblank.
  assert (load_config secrets environ = None) as E.
  { unfold load_config. rewrite Hsrc. cbn [PyInt.int]. unfold PyInt.of_str.
    unfold Py.strip_by. by rewrite (lstrip_by_all _ _ Hblank). }
  split; [exact E|]. unfold startup. by rewrite E.
Qed.

End StartupFacts.

Lemma blank_top_k_aborts_startup_witness :
  load_config ∅ {[ lit "TOP_K" := lit "  " ]} = None
  /\ startup (float:=Z) ∅ {[ lit "TOP_K" := lit "  " ]} = ([], IntRaised).
Proof.
  apply (blank_top_k_aborts_startup (float:=Z) ∅ {[ lit "TOP_K" := lit "  " ]}
           (lit "  ")).
  - reflexivity.
  - repeat constructor.
Defined.
